(** * Shopify inventory updater: a shallow embedding of [server.js]

    The service receives order webhooks (created, cancelled, fulfilled),
    checks their signature, and adjusts inventory levels through the shop's
    admin API, remembering in [processedOrders] the orders it deducted.

    Layout of the development:
    - [Crypto]: the primitives of Node's [crypto] module that
      [verifyWebhook] uses (SHA-256, HMAC, base64 digests);
    - [Js]: how JavaScript prints a number;
    - [Json]: JSON values with [JSON.stringify] and the body parser;
    - the payloads, the platform, the world and the effect monad;
    - [shopifyAPI], [updateInventoryForVariant], [updateInventoryForOrder],
      [verifyWebhook] and the request handlers;
    - the vocabulary of the specification and a small shop to run on;
    - the theorems.

    What the embedding fixes:
    - numbers are integers (identifiers, quantities), printed as
      JavaScript prints the Number they are read as;
    - the body of a webhook is the parsed JSON, whole, which
      [verifyWebhook] prints and hashes, together with the order the
      handler reads from it: an identifier that is a number or a string,
      line items that are an array of objects with an integer [variant_id]
      and [quantity]; a property that is absent or [null], and line items
      that are a number, stand for the malformed bodies on which property
      reads and [for..of] throw;
    - the platform is any function from a request and its own state to an
      answer, a rejection or a body of one of three shapes: every theorem
      of section [Properties] holds for all of them;
    - a handler runs to completion before the next request is taken up
      (the interleaving of handlers at their [await]s is not modelled);
    - of the console output, the lines about adjustments and skipped
      orders are kept. *)

From Stdlib Require Import ZArith List String Ascii Bool Lia.
From stdpp Require Import base gmap strings list pretty.

Set Warnings "-register-all,-clear-no-such-hyp".
Local Open Scope string_scope.
Local Open Scope Z_scope.
Local Open Scope list_scope.

(** ** Node's [crypto]: SHA-256, HMAC and base64 *)

Module Crypto.

(** Bytes are integers in 0..255, words are integers in 0..2^32-1. *)
Definition bytes_of_string (s : string) : list Z :=
  List.map (fun c => Z.of_N (N_of_ascii c)) (list_ascii_of_string s).

Definition string_of_bytes (l : list Z) : string :=
  string_of_list_ascii (List.map (fun b => ascii_of_N (Z.to_N b)) l).

Definition wrap32 (x : Z) : Z := Z.land x 0xffffffff.
Definition add32 (x y : Z) : Z := wrap32 (x + y).
Definition rotr (n x : Z) : Z :=
  wrap32 (Z.lor (Z.shiftr x n) (Z.shiftl x (32 - n))).
Definition not32 (x : Z) : Z := Z.lxor x 0xffffffff.

Definition choose (x y z : Z) : Z :=
  Z.lxor (Z.land x y) (Z.land (not32 x) z).
Definition majority (x y z : Z) : Z :=
  Z.lxor (Z.lxor (Z.land x y) (Z.land x z)) (Z.land y z).
Definition big_sigma0 (x : Z) : Z :=
  Z.lxor (Z.lxor (rotr 2 x) (rotr 13 x)) (rotr 22 x).
Definition big_sigma1 (x : Z) : Z :=
  Z.lxor (Z.lxor (rotr 6 x) (rotr 11 x)) (rotr 25 x).
Definition small_sigma0 (x : Z) : Z :=
  Z.lxor (Z.lxor (rotr 7 x) (rotr 18 x)) (Z.shiftr x 3).
Definition small_sigma1 (x : Z) : Z :=
  Z.lxor (Z.lxor (rotr 17 x) (rotr 19 x)) (Z.shiftr x 10).

(** The constants of FIPS 180-4 by their definition: the first 32 bits of
    the fractional parts of the cube roots (round constants) and of the
    square roots (initial hash value) of the first primes. *)
Definition is_prime (n : Z) : bool :=
  (2 <=? n)
  && List.forallb (fun d => negb (n mod d =? 0) || (n <=? d))
       (List.map Z.of_nat (List.seq 2 18)).

Definition first_primes (count : nat) : list Z :=
  List.firstn count (List.filter is_prime (List.map Z.of_nat (List.seq 2 320))).

(** The integer cube root, one bit at a time from bit [n - 1] down. *)
Fixpoint cube_root_bits (n : nat) (x acc : Z) : Z :=
  match n with
  | O => acc
  | S m =>
      let c := acc + 2 ^ Z.of_nat m in
      if c * c * c <=? x then cube_root_bits m x c else cube_root_bits m x acc
  end.

Definition round_constants : list Z :=
  Eval vm_compute in
    List.map (fun p => wrap32 (cube_root_bits 36 (p * 2 ^ 96) 0)) (first_primes 64).

Definition initial_hash : list Z :=
  Eval vm_compute in
    List.map (fun p => wrap32 (Z.sqrt (p * 2 ^ 64))) (first_primes 8).

(** Big-endian packing and unpacking. *)
Fixpoint be_bytes (n : nat) (x : Z) : list Z :=
  match n with
  | O => []
  | S m => Z.land (Z.shiftr x (8 * Z.of_nat m)) 0xff :: be_bytes m x
  end.

Fixpoint be_words (l : list Z) : list Z :=
  match l with
  | a :: b :: c :: d :: rest =>
      (Z.shiftl a 24 + Z.shiftl b 16 + Z.shiftl c 8 + d) :: be_words rest
  | _ => []
  end.

(** The message is followed by the byte 0x80, zero bytes up to 56 modulo
    64, and the bit length on eight bytes. *)
Definition pad (msg : list Z) : list Z :=
  let len := Z.of_nat (List.length msg) in
  msg ++ [0x80] ++ List.repeat 0 (Z.to_nat ((55 - len) mod 64))
      ++ be_bytes 8 (8 * len).

(** The message schedule, most recent word first: [sched] holds
    W(t-1), W(t-2), ... and is extended by [n] more words. *)
Fixpoint extend_schedule (n : nat) (sched : list Z) : list Z :=
  match n with
  | O => sched
  | S m =>
      let wt :=
        add32 (add32 (small_sigma1 (List.nth 1 sched 0)) (List.nth 6 sched 0))
              (add32 (small_sigma0 (List.nth 14 sched 0)) (List.nth 15 sched 0)) in
      extend_schedule m (wt :: sched)
  end.

Definition schedule (block : list Z) : list Z :=
  List.rev (extend_schedule 48 (List.rev (be_words block))).

Record registers := Regs { ra : Z; rb : Z; rc : Z; rd : Z;
                           re : Z; rf : Z; rg : Z; rh : Z }.

Definition round (r : registers) (kw : Z * Z) : registers :=
  let t1 := add32 (add32 (add32 (rh r) (big_sigma1 (re r)))
                         (add32 (choose (re r) (rf r) (rg r)) (fst kw)))
                  (snd kw) in
  let t2 := add32 (big_sigma0 (ra r)) (majority (ra r) (rb r) (rc r)) in
  Regs (add32 t1 t2) (ra r) (rb r) (rc r) (add32 (rd r) t1) (re r) (rf r) (rg r).

Definition regs_of (h : list Z) : registers :=
  Regs (List.nth 0 h 0) (List.nth 1 h 0) (List.nth 2 h 0) (List.nth 3 h 0)
       (List.nth 4 h 0) (List.nth 5 h 0) (List.nth 6 h 0) (List.nth 7 h 0).

Definition regs_list (r : registers) : list Z :=
  [ra r; rb r; rc r; rd r; re r; rf r; rg r; rh r].

Definition compress (h : list Z) (block : list Z) : list Z :=
  let r := List.fold_left round
             (List.combine round_constants (schedule block)) (regs_of h) in
  List.map (fun p => add32 (fst p) (snd p)) (List.combine h (regs_list r)).

Fixpoint absorb (fuel : nat) (h : list Z) (data : list Z) : list Z :=
  match fuel, data with
  | S m, _ :: _ => absorb m (compress h (List.firstn 64 data)) (List.skipn 64 data)
  | _, _ => h
  end.

Definition sha256 (msg : list Z) : list Z :=
  let data := pad msg in
  List.concat (List.map (be_bytes 4) (absorb (List.length data) initial_hash data)).

(** HMAC (RFC 2104) with a 64-byte block. *)
Definition hmac_key (key : list Z) : list Z :=
  let k := if (64 <? Z.of_nat (List.length key)) then sha256 key else key in
  k ++ List.repeat 0 (64 - List.length k)%nat.

Definition hmac_sha256 (key msg : list Z) : list Z :=
  let k := hmac_key key in
  sha256 (List.map (Z.lxor 0x5c) k ++ sha256 (List.map (Z.lxor 0x36) k ++ msg)).

(** [digest('base64')]: the standard alphabet, padded with [=]. *)
Definition base64_alphabet : list Z :=
  bytes_of_string "ABCDEFGHIJKLMNOPQRSTUVWXYZabcdefghijklmnopqrstuvwxyz0123456789+/".

Definition sextet (x : Z) : Z := List.nth (Z.to_nat (Z.land x 63)) base64_alphabet 0.

Fixpoint base64_bytes (l : list Z) : list Z :=
  match l with
  | [] => []
  | [a] =>
      [sextet (Z.shiftr a 2); sextet (Z.shiftl a 4); 61; 61]
  | [a; b] =>
      [sextet (Z.shiftr a 2); sextet (Z.lor (Z.shiftl a 4) (Z.shiftr b 4));
       sextet (Z.shiftl b 2); 61]
  | a :: b :: c :: rest =>
      sextet (Z.shiftr a 2) :: sextet (Z.lor (Z.shiftl a 4) (Z.shiftr b 4))
        :: sextet (Z.lor (Z.shiftl b 2) (Z.shiftr c 6)) :: sextet c
        :: base64_bytes rest
  end.

Definition base64 (l : list Z) : string := string_of_bytes (base64_bytes l).

Definition hex_digit (x : Z) : Z :=
  List.nth (Z.to_nat (Z.land x 15)) (bytes_of_string "0123456789abcdef") 0.

Definition hex (l : list Z) : string :=
  string_of_bytes (List.concat (List.map (fun b => [hex_digit (Z.shiftr b 4); hex_digit b]) l)).

(** [crypto.createHmac('sha256', key).update(data, 'utf8').digest('base64')];
    strings stand for their UTF-8 bytes. *)
Definition createHmac_sha256_base64 (key data : string) : string :=
  base64 (hmac_sha256 (bytes_of_string key) (bytes_of_string data)).

End Crypto.

(** ** JavaScript numbers in print

    An integer written in a JSON text is read as the nearest Number, a
    double, and printed by [Number::toString]: in full up to 2^53, and
    beyond that with the fewest digits that read back as the same Number,
    in exponent notation from 10^21. *)

Module Js.

(** The magnitude of the Number nearest to the integer [n >= 0]: 53 bits
    of significand, ties to the even significand. *)
Definition round_magnitude (n : Z) : Z :=
  if n <? 2 ^ 53 then n
  else
    let e := Z.log2 n - 52 in
    let q := Z.shiftr n e in
    let r := n - Z.shiftl q e in
    let half := Z.shiftl 1 (e - 1) in
    let q' := if (half <? r) || ((r =? half) && Z.odd q) then q + 1 else q in
    Z.shiftl q' e.

(** The Number value of the integer [n]; [None] is an infinity. *)
Definition to_Number (n : Z) : option Z :=
  let m := round_magnitude (Z.abs n) in
  if m <? 2 ^ 1024 then Some (Z.sgn n * m) else None.

(** Four times the ends of the interval of reals that round to the
    Number [x >= 2^53], and whether the ends belong to it. *)
Definition rounds_to (x : Z) : Z * Z * bool :=
  let e := Z.log2 x - 52 in
  let q := Z.shiftr x e in
  let above := 4 * x + 2 * 2 ^ e in
  let below := if q =? 2 ^ 52 then 4 * x - 2 ^ e else 4 * x - 2 * 2 ^ e in
  (below, above, Z.even q).

Definition within (range : Z * Z * bool) (v : Z) : bool :=
  let '(below, above, closed) := range in
  ((below <? 4 * v) && (4 * v <? above))
  || (closed && ((4 * v =? below) || (4 * v =? above))).

(** The digits [s] and the power [p] with [s * 10^p] of the fewest digits
    that rounds to [x], the nearest to [x] when there are two. *)
Fixpoint shortest (p : nat) (x : Z) : Z * Z :=
  match p with
  | O => (x, 0)
  | S p' =>
      let t := 10 ^ Z.of_nat p in
      let low := x / t in
      let high := low + 1 in
      let low_ok := (0 <? low) && within (rounds_to x) (low * t) in
      let high_ok := within (rounds_to x) (high * t) in
      let d_low := x - low * t in
      let d_high := high * t - x in
      if low_ok && high_ok then
        if d_low <? d_high then (low, Z.of_nat p)
        else if d_high <? d_low then (high, Z.of_nat p)
        else if Z.even low then (low, Z.of_nat p) else (high, Z.of_nat p)
      else if low_ok then (low, Z.of_nat p)
      else if high_ok then (high, Z.of_nat p)
      else shortest p' x
  end.

Fixpoint zeros (n : nat) : string :=
  match n with O => "" | S n' => "0" +:+ zeros n' end.

(** [Number::toString] of the positive Number [x], an integer. *)
Definition print_magnitude (x : Z) : string :=
  if x <? 2 ^ 53 then pretty x
  else
    let digits := String.length (pretty x) in
    let '(s, p) := shortest digits x in
    let k := Z.of_nat (String.length (pretty s)) in
    let n := k + p in
    if n <=? 21 then pretty s +:+ zeros (Z.to_nat p)
    else
      match pretty s with
      | String d EmptyString => String d EmptyString +:+ "e+" +:+ pretty (n - 1)
      | String d rest => String d EmptyString +:+ "." +:+ rest +:+ "e+" +:+ pretty (n - 1)
      | EmptyString => ""
      end.

(** [String(n)], [n.toString()] and [`${n}`] for the Number read from the
    integer [n]. *)
Definition Number_toString (n : Z) : string :=
  match to_Number n with
  | None => if n <? 0 then "-Infinity" else "Infinity"
  | Some x => if x <? 0 then "-" +:+ print_magnitude (- x) else print_magnitude x
  end.

(** [JSON.stringify(n)]: an infinity is printed as [null]. *)
Definition Number_toJSON (n : Z) : string :=
  match to_Number n with
  | None => "null"
  | Some _ => Number_toString n
  end.

End Js.

Arguments Js.Number_toString : simpl never.
Arguments Js.Number_toJSON : simpl never.

(** ** JSON values, [JSON.stringify] and the body parser

    [req.body] is what [express.json()] parsed from the bytes received.
    Numbers are integers (order and variant identifiers, quantities),
    each standing for the Number it is read as; strings stand for their
    UTF-8 bytes. An object is the list of its own properties in
    enumeration order. *)

Module Json.

Inductive value : Type :=
| Null
| Bool (b : bool)
| Num (n : Z)
| Str (s : string)
| Arr (items : list value)
| Obj (fields : list (string * value)).

Definition dquote : ascii := ascii_of_nat 34.
Definition backslash : ascii := ascii_of_nat 92.
Definition chr (c : ascii) : string := String c EmptyString.

Definition code (c : ascii) : Z := Z.of_N (N_of_ascii c).

(** [QuoteJSONString]: the quote, the backslash and the control
    characters are escaped, everything else is copied. *)
Definition escape (c : ascii) : string :=
  let n := code c in
  if n =? 34 then chr backslash +:+ chr dquote
  else if n =? 92 then chr backslash +:+ chr backslash
  else if n =? 8 then chr backslash +:+ "b"
  else if n =? 12 then chr backslash +:+ "f"
  else if n =? 10 then chr backslash +:+ "n"
  else if n =? 13 then chr backslash +:+ "r"
  else if n =? 9 then chr backslash +:+ "t"
  else if n <? 32 then
    chr backslash +:+ "u00" +:+ Crypto.string_of_bytes
      [Crypto.hex_digit (Z.shiftr n 4); Crypto.hex_digit n]
  else chr c.

Fixpoint escape_all (s : string) : string :=
  match s with
  | EmptyString => EmptyString
  | String c rest => escape c +:+ escape_all rest
  end.

Definition quote (s : string) : string :=
  chr dquote +:+ escape_all s +:+ chr dquote.

Fixpoint join (sep : string) (l : list string) : string :=
  match l with
  | [] => ""
  | [x] => x
  | x :: rest => x +:+ sep +:+ join sep rest
  end.

(** [JSON.stringify(v)], without indentation. *)
Fixpoint stringify (v : value) : string :=
  match v with
  | Null => "null"
  | Bool true => "true"
  | Bool false => "false"
  | Num n => Js.Number_toJSON n
  | Str s => quote s
  | Arr items => "[" +:+ join "," (List.map stringify items) +:+ "]"
  | Obj fields =>
      "{" +:+ join "," (List.map (fun kv => quote (fst kv) +:+ ":" +:+ stringify (snd kv)) fields)
          +:+ "}"
  end.

(** Property read [o.k]: [None] is [undefined]. *)
Fixpoint lookup_field (k : string) (fields : list (string * value)) : option value :=
  match fields with
  | [] => None
  | (k', v) :: rest => if String.eqb k k' then Some v else lookup_field k rest
  end.

(** *** The parser ([JSON.parse] on the integer fragment) *)

Definition is_ws (c : ascii) : bool :=
  let n := code c in (n =? 32) || (n =? 9) || (n =? 10) || (n =? 13).

Fixpoint skip_ws (l : list ascii) : list ascii :=
  match l with
  | c :: rest => if is_ws c then skip_ws rest else l
  | [] => []
  end.

Definition digit_of (c : ascii) : option Z :=
  let n := code c in if (48 <=? n) && (n <=? 57) then Some (n - 48) else None.

Definition hex_of (c : ascii) : option Z :=
  let n := code c in
  if (48 <=? n) && (n <=? 57) then Some (n - 48)
  else if (97 <=? n) && (n <=? 102) then Some (n - 87)
  else if (65 <=? n) && (n <=? 70) then Some (n - 55)
  else None.

Fixpoint parse_digits (acc : Z) (l : list ascii) : Z * list ascii :=
  match l with
  | c :: rest =>
      match digit_of c with
      | Some d => parse_digits (10 * acc + d) rest
      | None => (acc, l)
      end
  | [] => (acc, [])
  end.

Definition safe_integer (n : Z) : bool := Z.abs n <=? 2 ^ 53 - 1.

(** An integer literal: no leading zero, no fraction, no exponent. *)
Definition parse_unsigned (l : list ascii) : option (Z * list ascii) :=
  match l with
  | c :: rest =>
      match digit_of c with
      | Some d =>
          let '(n, rest') := parse_digits d rest in
          let leading_zero :=
            (d =? 0) && negb (Nat.eqb (List.length rest') (List.length rest)) in
          let continues :=
            match rest' with
            | c' :: _ => (code c' =? 46) || (code c' =? 101) || (code c' =? 69)
            | [] => false
            end in
          if leading_zero || continues || negb (safe_integer n) then None
          else Some (n, rest')
      | None => None
      end
  | [] => None
  end.

(** The characters of a string literal after its opening quote. Escapes
    [\uXXXX] are read for the ASCII range. *)
Fixpoint parse_chars (fuel : nat) (l : list ascii) : option (string * list ascii) :=
  match fuel with
  | O => None
  | S f =>
      match l with
      | [] => None
      | c :: rest =>
          if code c =? 34 then Some (EmptyString, rest)
          else if code c <? 32 then None
          else if code c =? 92 then
            match rest with
            | e :: rest' =>
                let plain (x : Z) :=
                  '(s, r) ← parse_chars f rest';
                  Some (String (ascii_of_N (Z.to_N x)) s, r) in
                if code e =? 34 then plain 34
                else if code e =? 92 then plain 92
                else if code e =? 47 then plain 47
                else if code e =? 98 then plain 8
                else if code e =? 102 then plain 12
                else if code e =? 110 then plain 10
                else if code e =? 114 then plain 13
                else if code e =? 116 then plain 9
                else if code e =? 117 then
                  match rest' with
                  | h1 :: h2 :: h3 :: h4 :: rest'' =>
                      a ← hex_of h1; b ← hex_of h2; c3 ← hex_of h3; d ← hex_of h4;
                      let x := 4096 * a + 256 * b + 16 * c3 + d in
                      if x <? 128 then
                        '(s, r) ← parse_chars f rest'';
                        Some (String (ascii_of_N (Z.to_N x)) s, r)
                      else None
                  | _ => None
                  end
                else None
            | [] => None
            end
          else
            '(s, r) ← parse_chars f rest;
            Some (String c s, r)
      end
  end.

(** Items separated by commas up to the closing bracket [close]. *)
Fixpoint parse_seq {A : Type} (item : list ascii → option (A * list ascii))
    (close : Z) (fuel : nat) (l : list ascii) : option (list A * list ascii) :=
  match fuel with
  | O => None
  | S f =>
      '(x, r) ← item l;
      match skip_ws r with
      | c :: r' =>
          if code c =? 44 then
            '(xs, r'') ← parse_seq item close f r';
            Some (x :: xs, r'')
          else if code c =? close then Some ([x], r')
          else None
      | [] => None
      end
  end.

(** Keys that are array indices are enumerated first by JavaScript; such
    objects are left out of the fragment. *)
Definition index_like (k : string) : bool :=
  match list_ascii_of_string k with
  | [] => false
  | l => List.forallb (fun c => match digit_of c with Some _ => true | None => false end) l
  end.

(** A repeated key keeps its first position and takes the last value. *)
Fixpoint set_field (k : string) (v : value) (fields : list (string * value))
  : list (string * value) :=
  match fields with
  | [] => [(k, v)]
  | (k', v') :: rest =>
      if String.eqb k k' then (k', v) :: rest else (k', v') :: set_field k v rest
  end.

Definition build_object (members : list (string * value)) : option value :=
  if List.existsb (fun kv => index_like (fst kv)) members then None
  else Some (Obj (List.fold_left (fun acc kv => set_field (fst kv) (snd kv) acc) members [])).

Fixpoint parse_value (fuel : nat) (l : list ascii) : option (value * list ascii) :=
  match fuel with
  | O => None
  | S f =>
      match skip_ws l with
      | [] => None
      | c :: rest =>
          let n := code c in
          if n =? 34 then
            '(s, r) ← parse_chars f rest; Some (Str s, r)
          else if n =? 91 then
            match skip_ws rest with
            | c' :: r' =>
                if code c' =? 93 then Some (Arr [], r')
                else '(xs, r'') ← parse_seq (parse_value f) 93 f rest; Some (Arr xs, r'')
            | [] => None
            end
          else if n =? 123 then
            match skip_ws rest with
            | c' :: r' =>
                if code c' =? 125 then Some (Obj [], r')
                else
                  let member (m : list ascii) :=
                    match skip_ws m with
                    | q :: m' =>
                        if code q =? 34 then
                          '(k, m'') ← parse_chars f m';
                          match skip_ws m'' with
                          | colon :: m3 =>
                              if code colon =? 58 then
                                '(v, m4) ← parse_value f m3; Some ((k, v), m4)
                              else None
                          | [] => None
                          end
                        else None
                    | [] => None
                    end in
                  '(ms, r'') ← parse_seq member 125 f rest;
                  o ← build_object ms;
                  Some (o, r'')
            | [] => None
            end
          else if n =? 45 then
            '(x, r) ← parse_unsigned rest; Some (Num (- x), r)
          else
            match c :: rest with
            | "n"%char :: "u"%char :: "l"%char :: "l"%char :: r => Some (Null, r)
            | "t"%char :: "r"%char :: "u"%char :: "e"%char :: r => Some (Bool true, r)
            | "f"%char :: "a"%char :: "l"%char :: "s"%char :: "e"%char :: r =>
                Some (Bool false, r)
            | other => '(x, r) ← parse_unsigned other; Some (Num x, r)
            end
      end
  end.

Definition parse (text : string) : option value :=
  let l := list_ascii_of_string text in
  '(v, r) ← parse_value (S (List.length l)) l;
  match skip_ws r with
  | [] => Some v
  | _ => None
  end.

(** [express.json()] in its default strict mode: an object or an array;
    a request without body leaves [req.body = {}]. *)
Definition express_json (raw : string) : option value :=
  match raw with
  | EmptyString => Some (Obj [])
  | _ =>
      match parse raw with
      | Some (Obj fs) => Some (Obj fs)
      | Some (Arr xs) => Some (Arr xs)
      | _ => None
      end
  end.

(** JSON texts are written with ['] for the double quote. *)
Definition text (s : string) : string :=
  string_of_list_ascii
    (List.map (fun c => if code c =? 39 then dquote else c) (list_ascii_of_string s)).

End Json.

(** ** Payloads

    The typed reading of the bodies the handlers receive. An order carries
    an identifier, which Shopify sends as a number and other senders may
    send as a string, and its line items. A property that is absent or
    [null] is kept apart, because reading through it throws; so are line
    items that are no array, because iterating them throws. *)

Inductive OrderId : Type :=
| IdNum (n : Z)
| IdStr (s : string).

Record LineItem : Type := { variant_id : Z; quantity : Z }.

Inductive LineItems : Type :=
| NoItems                             (* [undefined] or [null] *)
| ItemsNumber (n : Z)                 (* a number: no [length], not iterable *)
| ItemsArray (items : list LineItem). (* an array of line items *)

Record Order : Type := { id : option OrderId; line_items : LineItems }.

(** The body of [POST /test/process-order]. *)
Record TestBody : Type := { orderId : option OrderId; lineItems : LineItems }.

(** [id.toString()] *)
Definition toString (i : OrderId) : string :=
  match i with
  | IdNum n => Js.Number_toString n
  | IdStr s => s
  end.

(** JavaScript truthiness, as tested by [!orderId] and [!lineItems]. *)
Definition truthy_id (i : option OrderId) : bool :=
  match i with
  | None => false
  | Some (IdNum n) => negb (n =? 0)
  | Some (IdStr s) => negb (String.eqb s "")
  end.

Definition truthy_items (l : LineItems) : bool :=
  match l with
  | NoItems => false
  | ItemsNumber n => negb (n =? 0)
  | ItemsArray _ => true
  end.

(** The JSON value of a body, for [JSON.stringify(req.body)]. *)
Class JsonBody (B : Type) := to_json : B → Json.value.

#[export] Instance json_is_body : JsonBody Json.value := fun v => v.

Definition id_json (i : OrderId) : Json.value :=
  match i with
  | IdNum n => Json.Num n
  | IdStr s => Json.Str s
  end.

Definition line_item_json (li : LineItem) : Json.value :=
  Json.Obj [("variant_id", Json.Num (variant_id li)); ("quantity", Json.Num (quantity li))].

Definition order_fields (o : Order) : list (string * Json.value) :=
  match id o with Some i => [("id", id_json i)] | None => [] end
  ++ match line_items o with
     | NoItems => []
     | ItemsNumber n => [("line_items", Json.Num n)]
     | ItemsArray items => [("line_items", Json.Arr (List.map line_item_json items))]
     end.

(** The body of an order that has these two properties and no other. *)
Definition order_json (o : Order) : Json.value := Json.Obj (order_fields o).

(** *** Reading a body as an order

    What a handler finds at [order.id] and [order.line_items] of a parsed
    body, whatever other properties the body and its line items carry.
    Bodies in which the service would find something else there (an
    identifier that is neither a number nor a string, line items that are
    neither a number nor an array of objects with a numeric [variant_id]
    and [quantity]) have no reading. *)
Definition read_id (v : option Json.value) : option (option OrderId) :=
  match v with
  | None | Some Json.Null => Some None
  | Some (Json.Num n) => Some (Some (IdNum n))
  | Some (Json.Str s) => Some (Some (IdStr s))
  | Some _ => None
  end.

Definition read_line_item (v : Json.value) : option LineItem :=
  match v with
  | Json.Obj fields =>
      match Json.lookup_field "variant_id" fields, Json.lookup_field "quantity" fields with
      | Some (Json.Num v), Some (Json.Num q) => Some {| variant_id := v; quantity := q |}
      | _, _ => None
      end
  | _ => None
  end.

Definition read_line_items (v : option Json.value) : option LineItems :=
  match v with
  | None | Some Json.Null => Some NoItems
  | Some (Json.Num n) => Some (ItemsNumber n)
  | Some (Json.Arr items) => ItemsArray <$> mapM read_line_item items
  | Some _ => None
  end.

Definition read_order (j : Json.value) : option Order :=
  match j with
  | Json.Obj fields =>
      i ← read_id (Json.lookup_field "id" fields);
      l ← read_line_items (Json.lookup_field "line_items" fields);
      Some {| id := i; line_items := l |}
  | _ => None
  end.

(** The body of a webhook: the parsed JSON, which [verifyWebhook] prints
    and hashes whole, and the order that the handler reads from it. *)
Record Webhook : Type :=
  { parsed : Json.value; order : Order; reading : read_order parsed = Some order }.

#[export] Instance webhook_is_body : JsonBody Webhook := parsed.

(** A request: the signature header ([None] when it is missing), the bytes
    received, which Express drops after parsing, and the parsed body. *)
Record Request (B : Type) : Type :=
  { hmac_header : option string; raw_body : string; body : B }.
Arguments hmac_header {B} _.
Arguments raw_body {B} _.
Arguments body {B} _.

Inductive Payload : Type :=
| Text (s : string)           (* [res.send(s)] *)
| JsonError (error : string)  (* [res.json({ error })] *)
| JsonSuccess (msg : string)  (* [res.json({ status: 'success', message })] *)
| ErrorPage.                  (* Express's answer to an exception nobody caught *)

Record Response : Type := { status : Z; payload : Payload }.

(** ** The shop platform *)

Inductive Method : Type := GET | POST.

Record Adjustment : Type :=
  { adj_location_id : Z; adj_inventory_item_id : Z; available_adjustment : Z }.

(** The [config] that [shopifyAPI] hands to [axios]. *)
Record AxiosConfig : Type :=
  { method : Method; url : string; access_token : string; data : option Adjustment }.

Record InventoryLevel : Type := { location_id : Z; available : Z }.

(** [response.data], read as the shapes the service looks for: a body
    with the variant's [inventory_item_id], a number; a body with
    [inventory_levels], an array of levels whose [location_id] and
    [available] are numbers; any other body. A body that carries a
    [variant] or [inventory_levels] of another shape has no typed reading:
    as [OtherData] it is read as if the property were missing. *)
Inductive ResponseData : Type :=
| VariantData (inventory_item_id : Z)                (* [{ variant: { inventory_item_id } }] *)
| LevelsData (inventory_levels : list InventoryLevel) (* [{ inventory_levels: [...] }] *)
| OtherData (j : Json.value).

Definition level_json (lv : InventoryLevel) : Json.value :=
  Json.Obj [("location_id", Json.Num (location_id lv)); ("available", Json.Num (available lv))].

(** [response.data] as the JSON value it is. *)
Definition response_json (r : ResponseData) : Json.value :=
  match r with
  | VariantData i =>
      Json.Obj [("variant", Json.Obj [("inventory_item_id", Json.Num i)])]
  | LevelsData l => Json.Obj [("inventory_levels", Json.Arr (List.map level_json l))]
  | OtherData j => j
  end.


(** The [TypeError] of the read [data.k1.k2] when [data.k1] is
    [undefined] or [null], or [data] itself is [null]. *)
Definition missing_property (k1 k2 : string) (data : Json.value) : string :=
  match data with
  | Json.Null => "Cannot read properties of null (reading '" +:+ k1 +:+ "')"
  | Json.Obj fields =>
      match Json.lookup_field k1 fields with
      | Some Json.Null => "Cannot read properties of null (reading '" +:+ k2 +:+ "')"
      | _ => "Cannot read properties of undefined (reading '" +:+ k2 +:+ "')"
      end
  | _ => "Cannot read properties of undefined (reading '" +:+ k2 +:+ "')"
  end.

Inductive AxiosResult : Type :=
| Resolved (d : ResponseData)
| HttpFailure (code : Z) (d : Json.value) (* rejected, [error.response] is set *)
| NetworkFailure (msg : string).          (* rejected without a response *)

(** The platform is any state machine answering requests. *)
Record Platform : Type :=
  { Shop : Type; axios : AxiosConfig → Shop → AxiosResult * Shop }.

Record Env : Type :=
  { SHOPIFY_WEBHOOK_SECRET : option string;
    SHOPIFY_SHOP_DOMAIN : string;
    SHOPIFY_ACCESS_TOKEN : string }.

(** ** Exceptions and console output *)

Inductive Exn : Type :=
| Error (msg : string)
| TypeError (msg : string).

Definition message (e : Exn) : string :=
  match e with Error m => m | TypeError m => m end.

(** Which loop wrote a line: the wording differs, the data do not. *)
Inductive Site : Type := AtCreate | AtCancel | AtFulfil | AtTest.

Inductive LogLine : Type :=
| LogAdjusted (variantId adjustment : Z)          (* "Inventory adjusted by .. for variant .." *)
| LogItemDone (s : Site) (variantId qty : Z)      (* "Updated / Restored / Compensated .." *)
| LogItemFailed (s : Site) (variantId : Z) (msg : string) (* "Failed to .." *)
| LogSkipped (key : string).                      (* ".. was not processed .., skipping" *)

(** What a computation ends with: a value, or a thrown exception. *)
Inductive Outcome (A : Type) : Type :=
| Return (a : A)
| Throw (e : Exn).
Arguments Return {A} _.
Arguments Throw {A} _.

(** ** The service

    Every request handler runs to completion before the next request is
    taken up: a handler is a function from the world before it to its
    response and the world after it. *)

Section Service.

Context {P : Platform} (env : Env).

(** The module-level [processedOrders], the shop behind the API, and two
    records of what the process did: the requests it sent, oldest first,
    and the lines it wrote. *)
Record World : Type :=
  { processedOrders : gset string;
    shop : Shop P;
    calls : list AxiosConfig;
    console : list LogLine }.

Definition M (A : Type) : Type := World → Outcome A * World.

Definition ret {A : Type} (a : A) : M A := fun w => (Return a, w).
Definition throw {A : Type} (e : Exn) : M A := fun w => (Throw e, w).

Definition bind {A B : Type} (m : M A) (k : A → M B) : M B :=
  fun w =>
    match m w with
    | (Return a, w') => k a w'
    | (Throw e, w') => (Throw e, w')
    end.

(** [try { m } catch (error) { h error }]: the effects of [m] up to the
    throw stay. *)
Definition try_catch {A : Type} (m : M A) (h : Exn → M A) : M A :=
  fun w =>
    match m w with
    | (Return a, w') => (Return a, w')
    | (Throw e, w') => h e w'
    end.

#[local] Instance M_ret : MRet M := @ret.
#[local] Instance M_bind : MBind M := λ A B k m, bind m k.

Definition console_log (l : LogLine) : M unit :=
  fun w =>
    (Return tt,
     {| processedOrders := processedOrders w; shop := shop w;
        calls := calls w; console := console w ++ [l] |}).

Definition processedOrders_add (key : string) : M unit :=
  fun w =>
    (Return tt,
     {| processedOrders := {[key]} ∪ processedOrders w; shop := shop w;
        calls := calls w; console := console w |}).

Definition processedOrders_delete (key : string) : M unit :=
  fun w =>
    (Return tt,
     {| processedOrders := processedOrders w ∖ {[key]}; shop := shop w;
        calls := calls w; console := console w |}).

Definition processedOrders_has (key : string) : M bool :=
  fun w => (Return (bool_decide (key ∈ processedOrders w)), w).

Fixpoint for_of {A : Type} (l : list A) (body : A → M unit) : M unit :=
  match l with
  | [] => ret tt
  | x :: rest => body x;; for_of rest body
  end.

(** [order.id.toString()] *)
Definition id_toString (i : option OrderId) : M string :=
  match i with
  | Some v => ret (toString v)
  | None => throw (TypeError "Cannot read properties of undefined (reading 'toString')")
  end.

(** [order.line_items.length] *)
Definition items_length (l : LineItems) : M (option Z) :=
  match l with
  | NoItems => throw (TypeError "Cannot read properties of undefined (reading 'length')")
  | ItemsNumber _ => ret None
  | ItemsArray items => ret (Some (Z.of_nat (List.length items)))
  end.

(** The iteration that [for (const lineItem of ...)] starts. *)
Definition iterate (what : string) (l : LineItems) : M (list LineItem) :=
  match l with
  | ItemsArray items => ret items
  | _ => throw (TypeError (what +:+ " is not iterable"))
  end.

(** *** [shopifyAPI] *)

Definition shopifyAPI (endpoint : string) (m : Method) (d : option Adjustment)
  : M ResponseData :=
  fun w =>
    let config :=
      {| method := m;
         url := "https://" +:+ SHOPIFY_SHOP_DOMAIN env +:+ endpoint;
         access_token := SHOPIFY_ACCESS_TOKEN env;
         data := d |} in
    let '(result, shop') := axios P config (shop w) in
    let w' := {| processedOrders := processedOrders w; shop := shop';
                 calls := calls w ++ [config]; console := console w |} in
    match result with
    | Resolved response => (Return response, w')
    | HttpFailure code body =>
        (Throw (Error ("Shopify API Error: " +:+ Js.Number_toString code +:+ " - "
                         +:+ Json.stringify body)), w')
    | NetworkFailure msg => (Throw (Error msg), w')
    end.

(** [variantResponse.data.variant.inventory_item_id] *)
Definition read_inventory_item_id (r : ResponseData) : M Z :=
  match r with
  | VariantData i => ret i
  | _ => throw (TypeError (missing_property "variant" "inventory_item_id" (response_json r)))
  end.

(** [inventoryResponse.data.inventory_levels], whose [length] is read
    first. *)
Definition read_inventory_levels (r : ResponseData) : M (list InventoryLevel) :=
  match r with
  | LevelsData l => ret l
  | _ => throw (TypeError (missing_property "inventory_levels" "length" (response_json r)))
  end.

(** *** [updateInventoryForVariant] *)

Definition updateInventoryForVariant (variantId adjustment : Z) : M unit :=
  try_catch
    (variantResponse ←
       shopifyAPI ("/admin/api/2023-10/variants/" +:+ Js.Number_toString variantId +:+ ".json") GET None;
     inventoryItemId ← read_inventory_item_id variantResponse;
     inventoryResponse ←
       shopifyAPI ("/admin/api/2023-10/inventory_levels.json?inventory_item_ids="
                     +:+ Js.Number_toString inventoryItemId) GET None;
     levels ← read_inventory_levels inventoryResponse;
     match levels with
     | [] =>
         throw (Error ("No inventory levels found for variant " +:+ Js.Number_toString variantId))
     | inventoryLevel :: _ =>
         let locationId := location_id inventoryLevel in
         shopifyAPI "/admin/api/2023-10/inventory_levels/adjust.json" POST
           (Some {| adj_location_id := locationId;
                    adj_inventory_item_id := inventoryItemId;
                    available_adjustment := adjustment |});;
         console_log (LogAdjusted variantId adjustment)
     end)
    (fun error => throw (Error ("Inventory update failed: " +:+ message error))).

(** *** [updateInventoryForOrder] *)

Definition updateInventoryForOrder (order : Order) : M unit :=
  items_length (line_items order);;
  key ← id_toString (id order);
  processedOrders_add key;;
  items ← iterate "order.line_items" (line_items order);
  for_of items (fun lineItem =>
    try_catch
      (updateInventoryForVariant (variant_id lineItem) (- quantity lineItem);;
       console_log (LogItemDone AtCreate (variant_id lineItem) (quantity lineItem)))
      (fun error =>
         console_log (LogItemFailed AtCreate (variant_id lineItem) (message error)))).

(** *** Responses *)

Definition send (code : Z) (p : Payload) : M Response :=
  ret {| status := code; payload := p |}.

(** What the client gets: an exception that leaves a middleware or a
    handler is answered by Express with status 500. *)
Definition respond (m : M Response) (w : World) : Response * World :=
  match m w with
  | (Return r, w') => (r, w')
  | (Throw _, w') => ({| status := 500; payload := ErrorPage |}, w')
  end.

(** *** [verifyWebhook] *)

Definition createHmac (data : string) : M string :=
  match SHOPIFY_WEBHOOK_SECRET env with
  | Some secret => ret (Crypto.createHmac_sha256_base64 secret data)
  | None => throw (TypeError "The key argument must be of type string") (* abridged *)
  end.

Definition verifyWebhook {B : Type} `{JsonBody B} (req : Request B)
    (next : M Response) : M Response :=
  let hmac := hmac_header req in
  let body := Json.stringify (to_json (body req)) in
  hash ← createHmac body;
  if negb (bool_decide (Some hash = hmac)) then send 401 (Text "Unauthorized")
  else next.

(** *** [POST /webhooks/order-created] *)

Definition order_created_handler (order : Order) : M Response :=
  try_catch
    (updateInventoryForOrder order;;
     send 200 (Text "OK"))
    (fun error => send 500 (Text "Internal Server Error")).

(** *** [POST /webhooks/order-cancelled] *)

Definition order_cancelled_handler (order : Order) : M Response :=
  try_catch
    (key ← id_toString (id order);
     tracked ← processedOrders_has key;
     if negb tracked then
       console_log (LogSkipped key);;
       send 200 (Text "OK")
     else
       items ← iterate "order.line_items" (line_items order);
       for_of items (fun lineItem =>
         try_catch
           (updateInventoryForVariant (variant_id lineItem) (quantity lineItem);;
            console_log (LogItemDone AtCancel (variant_id lineItem) (quantity lineItem)))
           (fun error =>
              console_log (LogItemFailed AtCancel (variant_id lineItem) (message error))));;
       key' ← id_toString (id order);
       processedOrders_delete key';;
       send 200 (Text "OK"))
    (fun error => send 500 (Text "Internal Server Error")).

(** *** [POST /webhooks/order-fulfilled] *)

Definition order_fulfilled_handler (order : Order) : M Response :=
  try_catch
    (key ← id_toString (id order);
     tracked ← processedOrders_has key;
     if negb tracked then
       console_log (LogSkipped key);;
       send 200 (Text "OK")
     else
       items ← iterate "order.line_items" (line_items order);
       for_of items (fun lineItem =>
         try_catch
           (updateInventoryForVariant (variant_id lineItem) (quantity lineItem);;
            console_log (LogItemDone AtFulfil (variant_id lineItem) (quantity lineItem)))
           (fun error =>
              console_log (LogItemFailed AtFulfil (variant_id lineItem) (message error))));;
       key' ← id_toString (id order);
       processedOrders_delete key';;
       send 200 (Text "OK"))
    (fun error => send 500 (Text "Internal Server Error")).

(** *** [POST /test/process-order] *)

Definition test_process_order_handler (b : TestBody) : M Response :=
  try_catch
    (if negb (truthy_id (orderId b)) || negb (truthy_items (lineItems b)) then
       send 400 (JsonError "orderId and lineItems are required")
     else
       items ← iterate "lineItems" (lineItems b);
       for_of items (fun lineItem =>
         updateInventoryForVariant (variant_id lineItem) (- quantity lineItem);;
         console_log (LogItemDone AtTest (variant_id lineItem) (quantity lineItem)));;
       send 200 (JsonSuccess ("Test order " +:+ from_option toString "" (orderId b)
                                +:+ " processed successfully")))
    (fun error => send 500 (JsonError (message error))).

(** *** The routes *)

Definition webhook_order_created (req : Request Webhook) : World → Response * World :=
  respond (verifyWebhook req (order_created_handler (order (body req)))).

Definition webhook_order_cancelled (req : Request Webhook) : World → Response * World :=
  respond (verifyWebhook req (order_cancelled_handler (order (body req)))).

Definition webhook_order_fulfilled (req : Request Webhook) : World → Response * World :=
  respond (verifyWebhook req (order_fulfilled_handler (order (body req)))).

Definition test_process_order (b : TestBody) : World → Response * World :=
  respond (test_process_order_handler b).

End Service.

Arguments World : clear implicits.
Arguments M : clear implicits.

(** The world of a process that has just started on shop state [s]. *)
Definition boot {P : Platform} (s : Shop P) : World P :=
  {| processedOrders := ∅; shop := s; calls := []; console := [] |}.

(** ** Vocabulary of the specification

    The definitions below are not part of the service: they name what the
    statements about it talk about. *)

(** The three requests of an adjustment. *)
Definition variant_request (env : Env) (variantId : Z) : AxiosConfig :=
  {| method := GET;
     url := "https://" +:+ SHOPIFY_SHOP_DOMAIN env
              +:+ "/admin/api/2023-10/variants/" +:+ Js.Number_toString variantId +:+ ".json";
     access_token := SHOPIFY_ACCESS_TOKEN env;
     data := None |}.

Definition levels_request (env : Env) (inventoryItemId : Z) : AxiosConfig :=
  {| method := GET;
     url := "https://" +:+ SHOPIFY_SHOP_DOMAIN env
              +:+ "/admin/api/2023-10/inventory_levels.json?inventory_item_ids="
              +:+ Js.Number_toString inventoryItemId;
     access_token := SHOPIFY_ACCESS_TOKEN env;
     data := None |}.

Definition adjust_request (env : Env) (locationId inventoryItemId delta : Z) : AxiosConfig :=
  {| method := POST;
     url := "https://" +:+ SHOPIFY_SHOP_DOMAIN env
              +:+ "/admin/api/2023-10/inventory_levels/adjust.json";
     access_token := SHOPIFY_ACCESS_TOKEN env;
     data := Some {| adj_location_id := locationId;
                     adj_inventory_item_id := inventoryItemId;
                     available_adjustment := delta |} |}.

(** A mutating call is a POST; the lookups are GETs. *)
Definition is_post (c : AxiosConfig) : bool :=
  match method c with POST => true | GET => false end.

Definition ok200 : Response := {| status := 200; payload := Text "OK" |}.

Definition unauthorized : Response := {| status := 401; payload := Text "Unauthorized" |}.

Definition failure_message (r : AxiosResult) : string :=
  match r with
  | Resolved _ => ""
  | HttpFailure code body =>
      "Shopify API Error: " +:+ Js.Number_toString code +:+ " - " +:+ Json.stringify body
  | NetworkFailure msg => msg
  end.


(** The lines one line item leaves on the console: the adjustment and its
    confirmation, or the failure. *)
Definition item_lines (s : Site) (variantId delta qty : Z) (ls : list LogLine) : Prop :=
  ls = [LogAdjusted variantId delta; LogItemDone s variantId qty]
  ∨ (∃ m, ls = [LogItemFailed s variantId m]).

(** The units of variant [v] that the adjustments reported on the console
    added to the stock. *)
Fixpoint applied_delta (v : Z) (ls : list LogLine) : Z :=
  match ls with
  | [] => 0
  | LogAdjusted v' d :: rest => (if v' =? v then d else 0) + applied_delta v rest
  | _ :: rest => applied_delta v rest
  end.




(** The console lines of line items deducted one after the other by the
    test endpoint. *)
Definition deductions (l : list LineItem) : list LogLine :=
  concat (List.map (fun li => [LogAdjusted (variant_id li) (- quantity li);
                               LogItemDone AtTest (variant_id li) (quantity li)]) l).

(** The wording of the cancellation loop turned into that of the
    fulfilment loop. *)
Definition resite (l : LogLine) : LogLine :=
  match l with
  | LogItemDone AtCancel v q => LogItemDone AtFulfil v q
  | LogItemFailed AtCancel v m => LogItemFailed AtFulfil v m
  | other => other
  end.

(** What the service is sent. *)
Inductive Event : Type :=
| OrderCreated (req : Request Webhook)
| OrderCancelled (req : Request Webhook)
| OrderFulfilled (req : Request Webhook)
| TestProcessOrder (b : TestBody).

(** The key under which order-created processing tracks an order, when it
    gets as far as tracking it: the body has line items to count and an
    identifier to print. *)
Definition tracking_key (o : Order) : option string :=
  match line_items o with
  | NoItems => None
  | _ => toString <$> id o
  end.

(** A cancellation or fulfilment of the order [key] that was answered 200. *)
Definition unmarks (ev : Event) (r : Response) (key : string) : bool :=
  match ev with
  | OrderCancelled req | OrderFulfilled req =>
      bool_decide (toString <$> id (order (body req)) = Some key) && (status r =? 200)
  | _ => false
  end.

Section Vocabulary.

Context {P : Platform} (env : Env).
#[local] Existing Instance M_ret.
#[local] Existing Instance M_bind.

Definition after_call (c : AxiosConfig) (s : Shop P) (w : World P) : World P :=
  {| processedOrders := processedOrders w; shop := s;
     calls := calls w ++ [c]; console := console w |}.

Definition logged (l : LogLine) (w : World P) : World P :=
  {| processedOrders := processedOrders w; shop := shop w;
     calls := calls w; console := console w ++ [l] |}.


(** The adjust operation as section 4.2 of the specification lists it:
    resolve the variant, resolve the levels, take the first location,
    submit the adjustment. *)
Definition adjust (variantId delta : Z) (w : World P) : Outcome unit * World P :=
  let failed (m : string) (w' : World P) : Outcome unit * World P :=
    (Throw (Error ("Inventory update failed: " +:+ m)), w') in
  let q1 := variant_request env variantId in
  let '(r1, s1) := axios P q1 (shop w) in
  let w1 := after_call q1 s1 w in
  match r1 with
  | Resolved (VariantData item) =>
      let q2 := levels_request env item in
      let '(r2, s2) := axios P q2 s1 in
      let w2 := after_call q2 s2 w1 in
      match r2 with
      | Resolved (LevelsData []) =>
          failed ("No inventory levels found for variant " +:+ Js.Number_toString variantId) w2
      | Resolved (LevelsData (first :: _)) =>
          let q3 := adjust_request env (location_id first) item delta in
          let '(r3, s3) := axios P q3 s2 in
          let w3 := after_call q3 s3 w2 in
          match r3 with
          | Resolved _ => (Return tt, logged (LogAdjusted variantId delta) w3)
          | _ => failed (failure_message r3) w3
          end
      | Resolved other =>
          failed (missing_property "inventory_levels" "length" (response_json other)) w2
      | _ => failed (failure_message r2) w2
      end
  | Resolved other =>
      failed (missing_property "variant" "inventory_item_id" (response_json other)) w1
  | _ => failed (failure_message r1) w1
  end.

(** The requests of one adjustment of [variantId] by [delta]: the variant
    lookup, then the levels lookup, then the adjustment itself. *)
Definition item_calls (variantId delta : Z) (g : list AxiosConfig) : Prop :=
  g = [variant_request env variantId]
  ∨ (∃ item, g = [variant_request env variantId; levels_request env item])
  ∨ (∃ item loc, g = [variant_request env variantId; levels_request env item;
                       adjust_request env loc item delta]).

(** The body of the three webhook loops: one guarded adjustment. *)
Definition attempt (s : Site) (sign : Z → Z) (li : LineItem) : M P unit :=
  try_catch
    (updateInventoryForVariant env (variant_id li) (sign (quantity li));;
     console_log (LogItemDone s (variant_id li) (quantity li)))
    (fun error => console_log (LogItemFailed s (variant_id li) (message error))).

(** From [w] to [w'] every line item of [l], in order, had one adjustment
    by [sign quantity] started and left its lines on the console. *)
Definition loop_trace (s : Site) (sign : Z → Z) (l : list LineItem)
    (w w' : World P) : Prop :=
  ∃ groups lines,
    calls w' = calls w ++ concat groups
    ∧ Forall2 (fun li g => item_calls (variant_id li) (sign (quantity li)) g) l groups
    ∧ console w' = console w ++ concat lines
    ∧ Forall2 (fun li ls =>
                 item_lines s (variant_id li) (sign (quantity li)) (quantity li) ls)
              l lines.

(** Two worlds with the same shop and calls whose consoles grew by the
    same lines up to [f]. *)
Definition agree (f : LogLine → LogLine) (c1 c2 : list LogLine)
    (w1 w2 : World P) : Prop :=
  shop w1 = shop w2 ∧ calls w1 = calls w2
  ∧ ∃ n, console w1 = c1 ++ n ∧ console w2 = c2 ++ List.map f n.

(** The body of the test endpoint's loop: no guard. *)
Definition test_step (li : LineItem) : M P unit :=
  updateInventoryForVariant env (variant_id li) (- quantity li);;
  console_log (LogItemDone AtTest (variant_id li) (quantity li)).

(** *** The service as a transition system *)

Definition handle_event (ev : Event) : World P → Response * World P :=
  match ev with
  | OrderCreated req => webhook_order_created env req
  | OrderCancelled req => webhook_order_cancelled env req
  | OrderFulfilled req => webhook_order_fulfilled env req
  | TestProcessOrder b => test_process_order env b
  end.

(** The events with the responses they got, oldest first, and the world
    they leave. *)
Fixpoint run_events (evs : list Event) (w : World P) : list (Event * Response) * World P :=
  match evs with
  | [] => ([], w)
  | ev :: rest =>
      let '(r, w1) := handle_event ev w in
      let '(h, w2) := run_events rest w1 in
      ((ev, r) :: h, w2)
  end.

(** The header carries the digest of the re-serialised body. *)
Definition signature_ok {B : Type} `{JsonBody B} (req : Request B) : bool :=
  match SHOPIFY_WEBHOOK_SECRET env with
  | Some secret =>
      bool_decide (hmac_header req
                   = Some (Crypto.createHmac_sha256_base64 secret
                             (Json.stringify (to_json (body req)))))
  | None => false
  end.

(** An order-created webhook that passed the signature check and got as
    far as tracking [key]. *)
Definition marks (ev : Event) (key : string) : bool :=
  match ev with
  | OrderCreated req =>
      signature_ok req && bool_decide (tracking_key (order (body req)) = Some key)
  | _ => false
  end.

Definition step_tracked (ev : Event) (r : Response) (key : string) (before : bool)
  : bool :=
  if marks ev key then true else if unmarks ev r key then false else before.

(** Whether [key] is tracked after the history [h], as the order state
    machine of section 4.3 has it: marked by order-created, unmarked by a
    completed cancellation or fulfilment. *)
Fixpoint tracked_after (h : list (Event * Response)) (key : string) (before : bool)
  : bool :=
  match h with
  | [] => before
  | (ev, r) :: rest => tracked_after rest key (step_tracked ev r key before)
  end.

End Vocabulary.

(** ** The rest of [server.js]

    The connection probe, and the first listing of the file, in which
    order-created does not track. *)

(** What [res.status(..).json(..)] sends. *)
Record JsonReply : Type := { reply_status : Z; reply_json : Json.value }.

(** A property of an object literal: left out when its value is
    [undefined]. *)
Definition json_field (k : string) (v : option Json.value) : list (string * Json.value) :=
  match v with
  | Some x => [(k, x)]
  | None => []
  end.

Definition error500 : Response :=
  {| status := 500; payload := Text "Internal Server Error" |}.

(** The request of the connection probe. *)
Definition shop_request (env : Env) : AxiosConfig :=
  {| method := GET;
     url := "https://" +:+ SHOPIFY_SHOP_DOMAIN env +:+ "/admin/api/2023-10/shop.json";
     access_token := SHOPIFY_ACCESS_TOKEN env;
     data := None |}.

(** The order an event is about, as the key it is tracked under. *)
Definition event_key (ev : Event) : option string :=
  match ev with
  | OrderCreated req | OrderCancelled req | OrderFulfilled req =>
      toString <$> id (order (body req))
  | TestProcessOrder _ => None
  end.

(** [response.data.shop], [None] when it is [undefined]. *)
Definition shop_of (d : ResponseData) : option Json.value :=
  match response_json d with
  | Json.Obj fields => Json.lookup_field "shop" fields
  | _ => None
  end.

(** The requests [new] that a webhook sent for the line items [l]: at
    least one and at most three per line item, at most one of them
    mutating. *)
Definition within_budget (l : list LineItem) (new : list AxiosConfig) : Prop :=
  (length l ≤ length new ≤ 3 * length l)%nat
  ∧ (length (List.filter is_post new) ≤ length l)%nat.

(** Every mutating request among [new] adjusts by [sign quantity] of one
    of the line items [l]. *)
Definition adjusts_only (env : Env) (sign : Z → Z) (l : list LineItem)
    (new : list AxiosConfig) : Prop :=
  ∀ c, c ∈ new → is_post c = true →
    ∃ li loc item, li ∈ l ∧ c = adjust_request env loc item (sign (quantity li)).

(** The three requests of an adjustment of [variantId] by [delta] that
    went through. *)
Definition adjustment_calls (env : Env) (variantId delta : Z) (g : list AxiosConfig) : Prop :=
  ∃ item loc, g = [variant_request env variantId; levels_request env item;
                   adjust_request env loc item delta].

(** A request to the admin API of the configured shop, carrying the
    configured access token. *)
Definition service_request (env : Env) (c : AxiosConfig) : Prop :=
  access_token c = SHOPIFY_ACCESS_TOKEN env
  ∧ ∃ rest, url c = "https://" +:+ SHOPIFY_SHOP_DOMAIN env
                      +:+ "/admin/api/2023-10/" +:+ rest.

Section Coverage.

Context {P : Platform} (env : Env).
#[local] Existing Instance M_ret.
#[local] Existing Instance M_bind.

(** [w] with [key] added to the tracked orders. *)
Definition remember (key : string) (w : World P) : World P :=
  {| processedOrders := {[key]} ∪ processedOrders w; shop := shop w;
     calls := calls w; console := console w |}.

(** A computation that only ever adds service requests to the requests
    sent. *)
Definition confined {A : Type} (m : M P A) : Prop :=
  ∀ w, ∃ new, calls (m w).2 = calls w ++ new ∧ Forall (service_request env) new.

(** The two terminal events of an order. *)
Definition terminal_handler (fulfilled : bool) (order : Order) : M P Response :=
  if fulfilled then order_fulfilled_handler env order
  else order_cancelled_handler env order.

(** The property read [v.k], for the names [shop], [name] and [domain],
    which no prototype defines: [None] is [undefined]. Reading through
    [undefined] or [null] throws. *)
Definition get_property (v : option Json.value) (k : string) : M P (option Json.value) :=
  match v with
  | None =>
      throw (TypeError ("Cannot read properties of undefined (reading '" +:+ k +:+ "')"))
  | Some Json.Null =>
      throw (TypeError ("Cannot read properties of null (reading '" +:+ k +:+ "')"))
  | Some (Json.Obj fields) => ret (Json.lookup_field k fields)
  | Some _ => ret None
  end.

(** *** [GET /test-connection] *)

Definition test_connection_handler : M P JsonReply :=
  try_catch
    (response ← shopifyAPI env "/admin/api/2023-10/shop.json" GET None;
     shop1 ← get_property (Some (response_json response)) "shop";
     name ← get_property shop1 "name";
     shop2 ← get_property (Some (response_json response)) "shop";
     domain ← get_property shop2 "domain";
     ret {| reply_status := 200;
            reply_json := Json.Obj ([("status", Json.Str "connected")]
                                      ++ json_field "shop" name
                                      ++ json_field "domain" domain) |})
    (fun error =>
       ret {| reply_status := 500;
              reply_json := Json.Obj [("status", Json.Str "failed");
                                      ("error", Json.Str (message error))] |}).

Definition test_connection (w : World P) : JsonReply * World P :=
  match test_connection_handler w with
  | (Return r, w') => (r, w')
  | (Throw _, w') => ({| reply_status := 500; reply_json := Json.Null |}, w')
  end.

(** *** The first listing: [updateInventoryForOrder] and the
    order-created handler without [processedOrders] *)

Definition updateInventoryForOrder_v1 (order : Order) : M P unit :=
  items_length (line_items order);;
  items ← iterate "order.line_items" (line_items order);
  for_of items (fun lineItem =>
    try_catch
      (updateInventoryForVariant env (variant_id lineItem) (- quantity lineItem);;
       console_log (LogItemDone AtCreate (variant_id lineItem) (quantity lineItem)))
      (fun error =>
         console_log (LogItemFailed AtCreate (variant_id lineItem) (message error)))).

Definition order_created_handler_v1 (order : Order) : M P Response :=
  try_catch
    (updateInventoryForOrder_v1 order;;
     send 200 (Text "OK"))
    (fun error => send 500 (Text "Internal Server Error")).

End Coverage.

(** ** A small shop to run the service on

    One location, a catalogue of variants, and a number of requests that
    are still going to fail because the shop is down. *)

Module Demo.

Record Entry : Type :=
  { entry_variant : Z; entry_item : Z; entry_available : option Z }.

Record State : Type := { catalogue : list Entry; outage : nat }.

Definition env : Env :=
  {| SHOPIFY_WEBHOOK_SECRET := Some "hush";
     SHOPIFY_SHOP_DOMAIN := "demo.myshopify.com";
     SHOPIFY_ACCESS_TOKEN := "shpat_demo" |}.

Definition location : Z := 1.

Definition levels_of (e : Entry) : list InventoryLevel :=
  match entry_available e with
  | Some n => [{| location_id := location; available := n |}]
  | None => []
  end.

Definition adjust_entry (a : Adjustment) (e : Entry) : Entry :=
  if (entry_item e =? adj_inventory_item_id a) && (adj_location_id a =? location) then
    {| entry_variant := entry_variant e; entry_item := entry_item e;
       entry_available := (fun n => n + available_adjustment a) <$> entry_available e |}
  else e.

(** What is left of [s] after the prefix [p]. *)
Fixpoint after_prefix (p s : string) : option string :=
  match p, s with
  | EmptyString, _ => Some s
  | String a p', String b s' => if Ascii.eqb a b then after_prefix p' s' else None
  | String _ _, EmptyString => None
  end.

(** The place of [c] in [s], counted from [i]. *)
Fixpoint place_in (s : string) (i : Z) (c : ascii) : option Z :=
  match s with
  | EmptyString => None
  | String a rest => if Ascii.eqb a c then Some i else place_in rest (i + 1) c
  end.

Definition digit (c : ascii) : option Z := place_in "0123456789" 0 c.

(** The number whose digits are [acc] and then all of [s] up to the
    ending [stop]. *)
Fixpoint decimal (stop : string) (acc : Z) (s : string) : option Z :=
  match s with
  | EmptyString => if String.eqb stop "" then Some acc else None
  | String c rest =>
      match digit c with
      | Some d => decimal stop (10 * acc + d) rest
      | None => if String.eqb s stop then Some acc else None
      end
  end.

(** The identifier that is all of [s] up to the ending [stop]. *)
Definition identifier_before (stop : string) (s : string) : option Z :=
  match s with
  | String c rest =>
      match digit c with
      | Some d => decimal stop d rest
      | None => None
      end
  | EmptyString => None
  end.

Inductive Route : Type :=
| VariantRoute (variantId : Z)
| LevelsRoute (inventoryItemId : Z)
| NoRoute.

(** The two lookups of the admin API that the demo shop serves. *)
Definition route (u : string) : Route :=
  match after_prefix ("https://" +:+ SHOPIFY_SHOP_DOMAIN env +:+ "/admin/api/2023-10/") u with
  | Some path =>
      match after_prefix "variants/" path with
      | Some tail =>
          match identifier_before ".json" tail with
          | Some v => VariantRoute v
          | None => NoRoute
          end
      | None =>
          match after_prefix "inventory_levels.json?inventory_item_ids=" path with
          | Some tail =>
              match identifier_before "" tail with
              | Some i => LevelsRoute i
              | None => NoRoute
              end
          | None => NoRoute
          end
      end
  | None => NoRoute
  end.

Definition not_found (cat : list Entry) : AxiosResult * list Entry :=
  (HttpFailure 404 (Json.Obj [("errors", Json.Str "Not Found")]), cat).

Definition answer (c : AxiosConfig) (cat : list Entry) : AxiosResult * list Entry :=
  match method c, data c with
  | POST, Some a => (Resolved (OtherData (Json.Obj [])), List.map (adjust_entry a) cat)
  | _, _ =>
      match route (url c) with
      | VariantRoute v =>
          match List.find (fun e => entry_variant e =? v) cat with
          | Some e => (Resolved (VariantData (entry_item e)), cat)
          | None => not_found cat
          end
      | LevelsRoute i =>
          match List.find (fun e => entry_item e =? i) cat with
          | Some e => (Resolved (LevelsData (levels_of e)), cat)
          | None => not_found cat
          end
      | NoRoute => not_found cat
      end
  end.

Definition serve (c : AxiosConfig) (s : State) : AxiosResult * State :=
  match outage s with
  | S n => (HttpFailure 503 (Json.Obj [("errors", Json.Str "Service Unavailable")]),
            {| catalogue := catalogue s; outage := n |})
  | O =>
      let '(r, cat) := answer c (catalogue s) in
      (r, {| catalogue := cat; outage := O |})
  end.

Definition platform : Platform := {| Shop := State; axios := serve |}.

(** Variant 55 has ten units in stock; variant 77 is not stocked at any
    location. *)
Definition open_shop : State :=
  {| catalogue := [ {| entry_variant := 55; entry_item := 5500; entry_available := Some 10 |};
                    {| entry_variant := 77; entry_item := 7700; entry_available := None |} ];
     outage := 0 |}.

(** The same shop, failing its next [n] requests. *)
Definition shop_down (n : nat) : State :=
  {| catalogue := catalogue open_shop; outage := n |}.

Definition stock_of (variantId : Z) (s : State) : option Z :=
  e ← List.find (fun e => entry_variant e =? variantId) (catalogue s);
  entry_available e.

(** The service just started on shop state [s]. *)
Definition started (s : State) : World platform := boot (P:=platform) s.

(** Order 1001: two units of variant 55. *)
Definition order_1001 : Order :=
  {| id := Some (IdNum 1001);
     line_items := ItemsArray [ {| variant_id := 55; quantity := 2 |} ] |}.

(** Order 1002: a line item that cannot be adjusted, then one that can. *)
Definition order_1002 : Order :=
  {| id := Some (IdNum 1002);
     line_items := ItemsArray [ {| variant_id := 77; quantity := 1 |};
                                {| variant_id := 55; quantity := 3 |} ] |}.

(** A world in which orders 1001 and 1002 are tracked. *)
Definition tracking : World platform :=
  {| processedOrders := {["1001"; "1002"]}; shop := (open_shop : Shop platform);
     calls := []; console := [] |}.

(** The request a sender who knows the secret builds from re-serialised
    text. *)
Definition signed (b : Webhook) : Request Webhook :=
  let text := Json.stringify (parsed b) in
  {| hmac_header := Some (Crypto.createHmac_sha256_base64 "hush" text);
     raw_body := text;
     body := b |}.

(** Orders 1001 and 1002 as webhook bodies with no other property. *)
Definition webhook_1001 : Webhook :=
  {| parsed := order_json order_1001; order := order_1001; reading := eq_refl |}.

Definition webhook_1002 : Webhook :=
  {| parsed := order_json order_1002; order := order_1002; reading := eq_refl |}.

(** A cancellation of order 2002, its identifier a string. *)
Definition order_2002 : Order :=
  {| id := Some (IdStr "2002"); line_items := ItemsArray [] |}.

Definition webhook_2002 : Webhook :=
  {| parsed := order_json order_2002; order := order_2002; reading := eq_refl |}.

(** A webhook as the platform sends it: the JSON text escapes [&], and
    the signature is computed over that text. *)
Definition escaped_text : string :=
  Json.text
    "{'id':1001,'note':'Tom \u0026 Jerry','line_items':[{'variant_id':55,'quantity':2}]}".

Definition escaped_body : Json.value :=
  Json.Obj [("id", Json.Num 1001); ("note", Json.Str "Tom & Jerry");
            ("line_items", Json.Arr [Json.Obj [("variant_id", Json.Num 55);
                                               ("quantity", Json.Num 2)]])].

Definition genuine_request : Request Json.value :=
  {| hmac_header := Some (Crypto.createHmac_sha256_base64 "hush" escaped_text);
     raw_body := escaped_text;
     body := escaped_body |}.

(** Order 1001 with a note besides, as the handlers read it. *)
Definition webhook_with_note : Webhook :=
  {| parsed := escaped_body; order := order_1001; reading := eq_refl |}.

(** The same bytes under the signature of their re-serialisation. *)
Definition resigned_request : Request Json.value :=
  {| hmac_header :=
       Some (Crypto.createHmac_sha256_base64 "hush" (Json.stringify escaped_body));
     raw_body := escaped_text;
     body := escaped_body |}.


Definition test_order_7 : TestBody :=
  {| orderId := Some (IdNum 7);
     lineItems := ItemsArray [ {| variant_id := 55; quantity := 2 |};
                               {| variant_id := 77; quantity := 1 |};
                               {| variant_id := 55; quantity := 4 |} ] |}.

End Demo.

(** The demo configuration with the webhook secret left out. *)
Definition env_without_secret : Env :=
  {| SHOPIFY_WEBHOOK_SECRET := None;
     SHOPIFY_SHOP_DOMAIN := SHOPIFY_SHOP_DOMAIN Demo.env;
     SHOPIFY_ACCESS_TOKEN := SHOPIFY_ACCESS_TOKEN Demo.env |}.

(** A platform that knows its shop and nothing else. *)
Definition probe_platform : Platform :=
  {| Shop := unit;
     axios := fun c s =>
       if String.eqb (url c) (url (shop_request Demo.env)) then
         (Resolved (OtherData
            (Json.Obj [("shop", Json.Obj [("name", Json.Str "Demo");
                                          ("domain", Json.Str "demo.myshopify.com")])])), s)
       else (HttpFailure 404 (Json.Obj []), s) |}.

(** ** Known answers for the primitives *)

(** FIPS 180-4, the one-block message. *)
Example sha256_abc :
  Crypto.hex (Crypto.sha256 (Crypto.bytes_of_string "abc"))
  = "ba7816bf8f01cfea414140de5dae2223b00361a396177a9cb410ff61f20015ad".
Proof. vm_compute. reflexivity. Qed.

(** RFC 4231, test case 2. *)
Example hmac_rfc4231_case2 :
  Crypto.hex (Crypto.hmac_sha256 (Crypto.bytes_of_string "Jefe")
                (Crypto.bytes_of_string "what do ya want for nothing?"))
  = "5bdcc146bf60754e6a042426089575c75a003f089d2739839dec58b964ec3843".
Proof. vm_compute. reflexivity. Qed.

Example hmac_rfc4231_case2_base64 :
  Crypto.createHmac_sha256_base64 "Jefe" "what do ya want for nothing?"
  = "W9zBRr9gdU5qBCQmCJV1x1oAPwidJzmDnexYuWTsOEM=".
Proof. vm_compute. reflexivity. Qed.

Example Number_toString_known_answers :
  List.map Js.Number_toString
    [0; 1001; -55; 2 ^ 53 - 1; 2 ^ 53 + 1; 2 ^ 60; 10 ^ 21 - 1; 10 ^ 21; 10 ^ 23; 2 ^ 70;
     - 2 ^ 64; 2 ^ 1024]
  = ["0"; "1001"; "-55"; "9007199254740991"; "9007199254740992"; "1152921504606847000";
     "1e+21"; "1e+21"; "1e+23"; "1.1805916207174113e+21"; "-18446744073709552000";
     "Infinity"].
Proof. vm_compute. reflexivity. Qed.

Example stringify_order_1001 :
  Json.stringify (order_json Demo.order_1001)
  = Json.text "{'id':1001,'line_items':[{'variant_id':55,'quantity':2}]}".
Proof. vm_compute. reflexivity. Qed.

Example parse_spaced_order :
  Json.express_json
    (Json.text "{ 'id': 1001, 'line_items': [ {'variant_id': 55, 'quantity': 2} ] }")
  = Some (order_json Demo.order_1001).
Proof. vm_compute. reflexivity. Qed.

Example parse_refuses_fractions :
  Json.express_json (Json.text "{'id': 1.5}") = None.
Proof. vm_compute. reflexivity. Qed.

(** ** Properties of the service *)

Section Properties.

Context {P : Platform} (env : Env).
#[local] Existing Instance M_ret.
#[local] Existing Instance M_bind.

Lemma updateInventoryForVariant_adjust (v d : Z) (w : World P) :
  updateInventoryForVariant env v d w = adjust env v d w.
Proof.
  unfold updateInventoryForVariant, adjust, try_catch, mbind, M_bind, bind, shopifyAPI.
  unfold variant_request, levels_request, adjust_request, after_call, logged.
  cbn.
  destruct (axios P _ (shop w)) as [[[i|ls|j]|c b|m] s1]; cbn; try reflexivity.
  destruct (axios P _ s1) as [[[i'|[|l ls]|j]|c b|m] s2]; cbn; try reflexivity.
  destruct (axios P _ s2) as [[d3|c b|m] s3]; cbn; reflexivity.
Qed.


Lemma adjust_effect (v d : Z) (w : World P) :
  ∃ g, processedOrders (adjust env v d w).2 = processedOrders w
       ∧ calls (adjust env v d w).2 = calls w ++ g
       ∧ item_calls env v d g
       ∧ ((adjust env v d w).1 = Return tt
            ∧ console (adjust env v d w).2 = console w ++ [LogAdjusted v d]
          ∨ (∃ m, (adjust env v d w).1 = Throw (Error ("Inventory update failed: " +:+ m)))
            ∧ console (adjust env v d w).2 = console w).
Proof.
  unfold adjust, item_calls.
  destruct (axios P _ (shop w)) as [[[i|ls|j]|c b|m] s1]; cbn;
    try (eexists; split_and!; [reflexivity|reflexivity|left; reflexivity|right; eauto]).
  destruct (axios P _ s1) as [[[i'|[|l ls]|j]|c b|m] s2]; cbn;
    try (eexists; split_and!;
         [reflexivity|rewrite <- app_assoc; reflexivity|right; left; eauto|right; eauto]).
  destruct (axios P _ s2) as [[d3|c b|m] s3]; cbn;
    (eexists; split_and!;
     [reflexivity|rewrite <- !app_assoc; reflexivity|right; right; eauto|eauto]).
Qed.

Lemma attempt_effect (s : Site) (sign : Z → Z) (li : LineItem) (w : World P) :
  ∃ w' g ls,
    attempt env s sign li w = (Return tt, w')
    ∧ processedOrders w' = processedOrders w
    ∧ calls w' = calls w ++ g
    ∧ item_calls env (variant_id li) (sign (quantity li)) g
    ∧ console w' = console w ++ ls
    ∧ item_lines s (variant_id li) (sign (quantity li)) (quantity li) ls.
Proof.
  unfold attempt, try_catch, mbind, M_bind, bind.
  rewrite updateInventoryForVariant_adjust.
  destruct (adjust_effect (variant_id li) (sign (quantity li)) w)
    as (g & Hset & Hcalls & Hg & Hout).
  destruct (adjust env _ _ w) as [r w1]; cbn in *.
  destruct Hout as [[-> Hcon] | [[m ->] Hcon]]; cbn.
  - eexists _, g, _; split_and!; eauto.
    + cbn. rewrite Hcon, <- app_assoc. reflexivity.
    + left. reflexivity.
  - eexists _, g, _; split_and!; eauto.
    + cbn. rewrite Hcon. reflexivity.
    + right. eauto.
Qed.

Lemma for_of_attempt (s : Site) (sign : Z → Z) (l : list LineItem) (w : World P) :
  ∃ w', for_of l (attempt env s sign) w = (Return tt, w')
        ∧ processedOrders w' = processedOrders w
        ∧ loop_trace env s sign l w w'.
Proof.
  revert w. induction l as [|li l IH]; intros w.
  - exists w. split; [reflexivity|]. split; [reflexivity|].
    exists [], []. cbn. rewrite !app_nil_r. auto.
  - destruct (attempt_effect s sign li w) as (w1 & g & ls & Hrun & Hset & Hcalls & Hg & Hcon & Hls).
    destruct (IH w1) as (w2 & Hrun2 & Hset2 & groups & lines & Hc2 & Hgs & Hl2 & Hlss).
    exists w2. split_and!.
    + cbn. unfold mbind, M_bind, bind. rewrite Hrun. exact Hrun2.
    + congruence.
    + exists (g :: groups), (ls :: lines). cbn.
      rewrite Hc2, Hcalls, Hl2, Hcon, <- !app_assoc. auto.
Qed.



Lemma loop_trace_from (s : Site) (sign : Z → Z) (l : list LineItem) (w0 w w' : World P) :
  calls w = calls w0 → console w = console w0 →
  loop_trace env s sign l w w' → loop_trace env s sign l w0 w'.
Proof.
  intros Hc Hl (groups & lines & H1 & H2 & H3 & H4).
  exists groups, lines. rewrite <- Hc, <- Hl. auto.
Qed.

Lemma created_run (o : Order) (i : OrderId) (l : list LineItem) (w : World P) :
  id o = Some i → line_items o = ItemsArray l →
  ∃ w', order_created_handler env o w = (Return ok200, w')
        ∧ processedOrders w' = {[toString i]} ∪ processedOrders w
        ∧ loop_trace env AtCreate Z.opp l w w'.
Proof.
  intros Hid Hitems.
  unfold order_created_handler, updateInventoryForOrder, try_catch, mbind, M_bind, bind.
  rewrite Hid, Hitems. cbn.
  match goal with
  | |- context [for_of l ?f ?w1] =>
      change (for_of l f w1) with (for_of l (attempt env AtCreate Z.opp) w1);
      destruct (for_of_attempt AtCreate Z.opp l w1) as (w' & -> & Hset & Htrace)
  end.
  exists w'. split_and!; [reflexivity | exact Hset |].
  eapply loop_trace_from; [| | exact Htrace]; reflexivity.
Qed.

Lemma cancelled_run (o : Order) (i : OrderId) (l : list LineItem) (w : World P) :
  id o = Some i → line_items o = ItemsArray l → toString i ∈ processedOrders w →
  ∃ w', order_cancelled_handler env o w = (Return ok200, w')
        ∧ processedOrders w' = processedOrders w ∖ {[toString i]}
        ∧ loop_trace env AtCancel (fun q => q) l w w'.
Proof.
  intros Hid Hitems Hin.
  unfold order_cancelled_handler, try_catch, mbind, M_bind, bind, processedOrders_has.
  rewrite Hid, Hitems. cbn. rewrite bool_decide_eq_true_2 by exact Hin. cbn.
  match goal with
  | |- context [for_of l ?f ?w1] =>
      change (for_of l f w1) with (for_of l (attempt env AtCancel (fun q => q)) w1);
      destruct (for_of_attempt AtCancel (fun q => q) l w1) as (w' & -> & Hset & Htrace)
  end.
  cbn. eexists. split_and!; [reflexivity | cbn; rewrite Hset; reflexivity | exact Htrace].
Qed.

Lemma fulfilled_run (o : Order) (i : OrderId) (l : list LineItem) (w : World P) :
  id o = Some i → line_items o = ItemsArray l → toString i ∈ processedOrders w →
  ∃ w', order_fulfilled_handler env o w = (Return ok200, w')
        ∧ processedOrders w' = processedOrders w ∖ {[toString i]}
        ∧ loop_trace env AtFulfil (fun q => q) l w w'.
Proof.
  intros Hid Hitems Hin.
  unfold order_fulfilled_handler, try_catch, mbind, M_bind, bind, processedOrders_has.
  rewrite Hid, Hitems. cbn. rewrite bool_decide_eq_true_2 by exact Hin. cbn.
  match goal with
  | |- context [for_of l ?f ?w1] =>
      change (for_of l f w1) with (for_of l (attempt env AtFulfil (fun q => q)) w1);
      destruct (for_of_attempt AtFulfil (fun q => q) l w1) as (w' & -> & Hset & Htrace)
  end.
  cbn. eexists. split_and!; [reflexivity | cbn; rewrite Hset; reflexivity | ].
  destruct Htrace as (groups & lines & H1 & H2 & H3 & H4).
  exists groups, lines. cbn. auto.
Qed.


(** C3. Once order-created has been processed for an order (a body with
    an identifier and an array of line items), the handler answers 200 and
    the stringified identifier is in the Tracked Order Set, whatever the
    platform answered to the line-item adjustments: the statement holds
    for every platform and every world. *)
Theorem order_created_marks_tracked (o : Order) (i : OrderId) (l : list LineItem)
    (w : World P) :
  id o = Some i → line_items o = ItemsArray l →
  ∃ w', respond (order_created_handler env o) w = (ok200, w')
        ∧ toString i ∈ processedOrders w'.
Proof.
  intros Hid Hitems.
  destruct (created_run o i l w Hid Hitems) as (w' & Hrun & Hset & _).
  exists w'. unfold respond. rewrite Hrun. split; [reflexivity|].
  rewrite Hset. set_solver.
Qed.

(** C4. Order-cancelled and order-fulfilled for an identifier that is
    not in the Tracked Order Set answer 200 "OK", send no request to the
    platform (so no inventory mutation), and leave the set and the shop
    as they were. *)
Theorem terminal_event_untracked_is_skipped (o : Order) (i : OrderId) (w : World P) :
  id o = Some i → toString i ∉ processedOrders w →
  (∃ w', respond (order_cancelled_handler env o) w = (ok200, w')
         ∧ processedOrders w' = processedOrders w
         ∧ calls w' = calls w ∧ shop w' = shop w)
  ∧ (∃ w', respond (order_fulfilled_handler env o) w = (ok200, w')
           ∧ processedOrders w' = processedOrders w
           ∧ calls w' = calls w ∧ shop w' = shop w).
Proof.
  intros Hid Hout.
  unfold respond, order_cancelled_handler, order_fulfilled_handler,
    try_catch, mbind, M_bind, bind, processedOrders_has.
  rewrite Hid. cbn. rewrite bool_decide_eq_false_2 by exact Hout. cbn.
  split; eexists; split_and!; reflexivity.
Qed.




Lemma adjust_agree f c1 c2 (v d : Z) (w1 w2 : World P) :
  f (LogAdjusted v d) = LogAdjusted v d →
  agree f c1 c2 w1 w2 →
  (adjust env v d w1).1 = (adjust env v d w2).1
  ∧ agree f c1 c2 (adjust env v d w1).2 (adjust env v d w2).2
  ∧ processedOrders (adjust env v d w1).2 = processedOrders w1
  ∧ processedOrders (adjust env v d w2).2 = processedOrders w2.
Proof.
  intros Hf (Hs & Hc & n & Hn1 & Hn2).
  assert ((adjust env v d w1).1 = (adjust env v d w2).1
          ∧ agree f c1 c2 (adjust env v d w1).2 (adjust env v d w2).2) as [H1 H2].
  { unfold adjust, agree. rewrite <- Hs.
    destruct (axios P _ (shop w1)) as [[[i|ls|j]|c b|m] s1]; cbn;
      try (split_and!; [reflexivity | reflexivity | congruence | by exists n]).
    destruct (axios P _ s1) as [[[i'|[|l ls]|j]|c b|m] s2]; cbn;
      try (split_and!; [reflexivity | reflexivity | congruence | by exists n]).
    destruct (axios P _ s2) as [[d3|c b|m] s3]; cbn;
      try (split_and!; [reflexivity | reflexivity | congruence | by exists n]).
    split_and!; [reflexivity | reflexivity | congruence | ].
    exists (n ++ [LogAdjusted v d]).
    rewrite Hn1, Hn2, map_app, <- !app_assoc. cbn. rewrite Hf. auto. }
  destruct (adjust_effect v d w1) as (g1 & Hp1 & _).
  destruct (adjust_effect v d w2) as (g2 & Hp2 & _).
  auto.
Qed.

Section Sites.

Variables (f : LogLine → LogLine) (s1 s2 : Site) (sign : Z → Z).
Hypothesis f_adjusted : ∀ v d, f (LogAdjusted v d) = LogAdjusted v d.
Hypothesis f_done : ∀ v q, f (LogItemDone s1 v q) = LogItemDone s2 v q.
Hypothesis f_failed : ∀ v m, f (LogItemFailed s1 v m) = LogItemFailed s2 v m.

Lemma attempt_agree c1 c2 (li : LineItem) (w1 w2 : World P) :
  agree f c1 c2 w1 w2 →
  ∃ u1 u2, attempt env s1 sign li w1 = (Return tt, u1)
           ∧ attempt env s2 sign li w2 = (Return tt, u2)
           ∧ agree f c1 c2 u1 u2
           ∧ processedOrders u1 = processedOrders w1
           ∧ processedOrders u2 = processedOrders w2.
Proof.
  intros Hag.
  destruct (adjust_agree f c1 c2 (variant_id li) (sign (quantity li)) w1 w2
              (f_adjusted (variant_id li) (sign (quantity li))) Hag)
    as (Hout & (Hs & Hc & n & Hn1 & Hn2) & Hp1 & Hp2).
  unfold attempt, try_catch, mbind, M_bind, bind.
  rewrite !updateInventoryForVariant_adjust.
  destruct (adjust env _ _ w1) as [r1 u1], (adjust env _ _ w2) as [r2 u2]; cbn in *.
  subst r2. destruct r1 as [[]|e]; cbn.
  - eexists _, _. split; [reflexivity|]. split; [reflexivity|].
    split; [|cbn; auto]. split_and!; cbn; auto.
    exists (n ++ [LogItemDone s1 (variant_id li) (quantity li)]).
    rewrite Hn1, Hn2, map_app, <- !app_assoc. cbn. rewrite f_done. auto.
  - eexists _, _. split; [reflexivity|]. split; [reflexivity|].
    split; [|cbn; auto]. split_and!; cbn; auto.
    exists (n ++ [LogItemFailed s1 (variant_id li) (message e)]).
    rewrite Hn1, Hn2, map_app, <- !app_assoc. cbn. rewrite f_failed. auto.
Qed.

Lemma for_of_agree c1 c2 (l : list LineItem) (w1 w2 : World P) :
  agree f c1 c2 w1 w2 →
  ∃ u1 u2, for_of l (attempt env s1 sign) w1 = (Return tt, u1)
           ∧ for_of l (attempt env s2 sign) w2 = (Return tt, u2)
           ∧ agree f c1 c2 u1 u2
           ∧ processedOrders u1 = processedOrders w1
           ∧ processedOrders u2 = processedOrders w2.
Proof.
  revert w1 w2. induction l as [|li l IH]; intros w1 w2 Hag.
  - exists w1, w2. auto.
  - destruct (attempt_agree c1 c2 li w1 w2 Hag) as (u1 & u2 & E1 & E2 & Hag' & Hp1 & Hp2).
    destruct (IH u1 u2 Hag') as (v1 & v2 & F1 & F2 & Hag'' & Hq1 & Hq2).
    exists v1, v2. cbn. unfold mbind, M_bind, bind. rewrite E1, E2.
    split_and!; auto; congruence.
Qed.

End Sites.





(** C10. The order-cancelled and order-fulfilled handlers coincide: on
    every body and every world they give the same response, the same
    Tracked Order Set, the same shop state and the same sequence of
    requests; their console lines differ in wording only ([resite]). *)
Theorem cancelled_and_fulfilled_coincide (o : Order) (w : World P) :
  let '(r1, w1) := respond (order_cancelled_handler env o) w in
  let '(r2, w2) := respond (order_fulfilled_handler env o) w in
  r1 = r2
  ∧ processedOrders w1 = processedOrders w2
  ∧ shop w1 = shop w2
  ∧ calls w1 = calls w2
  ∧ ∃ new, console w1 = console w ++ new ∧ console w2 = console w ++ List.map resite new.
Proof.
  unfold respond, order_cancelled_handler, order_fulfilled_handler,
    try_catch, mbind, M_bind, bind, processedOrders_has.
  destruct (id o) as [i|]; cbn.
  2: { split_and!; try reflexivity. exists []. cbn. rewrite app_nil_r. auto. }
  destruct (bool_decide (toString i ∈ processedOrders w)); cbn.
  2: { split_and!; try reflexivity. exists [LogSkipped (toString i)]. auto. }
  destruct (line_items o) as [|n|l]; cbn;
    try (split_and!; try reflexivity; exists []; cbn; rewrite app_nil_r; by auto).
  change (for_of l _ w) with (for_of l (attempt env AtCancel (fun q => q)) w) at 1.
  change (for_of l _ w) with (for_of l (attempt env AtFulfil (fun q => q)) w) at 2.
  destruct (for_of_agree resite AtCancel AtFulfil (fun q => q)
              (fun _ _ => eq_refl) (fun _ _ => eq_refl) (fun _ _ => eq_refl)
              (console w) (console w) l w w)
    as (u1 & u2 & -> & -> & (Hs & Hc & n & Hn1 & Hn2) & Hp1 & Hp2).
  { split_and!; try reflexivity. exists []. cbn. rewrite app_nil_r. auto. }
  cbn. split_and!; [reflexivity | congruence | exact Hs | exact Hc | eauto].
Qed.










Lemma test_loop (l : list LineItem) (w : World P) :
  ∃ k r w', for_of l (test_step env) w = (r, w')
    ∧ processedOrders w' = processedOrders w
    ∧ console w' = console w ++ deductions (take k l)
    ∧ (r = Return tt ∧ k = length l
       ∨ (∃ m, r = Throw (Error ("Inventory update failed: " +:+ m))) ∧ (k < length l)%nat).
Proof.
  revert w. induction l as [|li l IH]; intros w.
  - exists 0%nat, (Return tt), w. cbn. rewrite app_nil_r. split_and!; auto.
  - cbn. unfold mbind, M_bind, bind. unfold test_step at 1.
    unfold mbind, M_bind, bind. rewrite updateInventoryForVariant_adjust.
    destruct (adjust_effect (variant_id li) (- quantity li) w)
      as (g & Hset & _ & _ & Hout).
    destruct (adjust env _ _ w) as [r1 w1]; cbn in *.
    destruct Hout as [[-> Hcon] | [[m ->] Hcon]]; cbn.
    + match goal with |- context [for_of l (test_step env) ?w2] =>
        destruct (IH w2) as (k & r & w' & -> & Hset' & Hcon' & Hk) end.
      exists (S k), r, w'. cbn in *. split_and!; auto.
      * congruence.
      * rewrite Hcon', Hcon, <- !app_assoc. reflexivity.
      * destruct Hk as [[-> ->] | [Hm Hlt]]; [left; auto | right; split; [auto|lia]].
    + exists 0%nat. eexists _, _. split_and!; [reflexivity | auto | | ].
      * cbn. rewrite app_nil_r. exact Hcon.
      * right. split; [eauto | lia].
Qed.

Lemma test_process_order_set (b : TestBody) (w : World P) :
  processedOrders (test_process_order env b w).2 = processedOrders w.
Proof.
  unfold test_process_order, respond, test_process_order_handler,
    try_catch, mbind, M_bind, bind.
  destruct (truthy_id (orderId b)); cbn; [|reflexivity].
  destruct (lineItems b) as [|n|l]; cbn; [reflexivity | by destruct (n =? 0) |].
  change (for_of l _ w) with (for_of l (test_step env) w).
  destruct (test_loop l w) as (k & r & w' & -> & Hset & _ & Hk).
  destruct Hk as [[-> _] | [[m ->] _]]; exact Hset.
Qed.



Lemma verifyWebhook_eq {B : Type} `{JsonBody B}
    (req : Request B) (next : M P Response) (w : World P) :
  verifyWebhook env req next w
  = match SHOPIFY_WEBHOOK_SECRET env with
    | Some _ => if signature_ok env req then next w else (Return unauthorized, w)
    | None => (Throw (TypeError "The key argument must be of type string"), w)
    end.
Proof.
  unfold verifyWebhook, signature_ok, createHmac, mbind, M_bind, bind.
  destruct (SHOPIFY_WEBHOOK_SECRET env) as [secret|]; cbn; [|reflexivity].
  assert (∀ a b : option string, bool_decide (a = b) = bool_decide (b = a)) as Hsym
    by (intros; apply bool_decide_ext; split; congruence).
  rewrite Hsym. destruct (bool_decide _); reflexivity.
Qed.

(** X1. What [verifyWebhook] decides on. With a secret configured, the
    request goes on to the handler when the header equals the base64
    HMAC-SHA256, under the secret, of [JSON.stringify(req.body)], the
    re-serialised parsed body; on any other header, or none, the answer is
    401 and nothing else happens. *)
Theorem verifyWebhook_checks_reserialised_body {B : Type} `{JsonBody B}
    (req : Request B) (next : M P Response) (w : World P) (secret : string) :
  SHOPIFY_WEBHOOK_SECRET env = Some secret →
  (hmac_header req
   = Some (Crypto.createHmac_sha256_base64 secret (Json.stringify (to_json (body req)))) →
   verifyWebhook env req next w = next w)
  ∧ (hmac_header req
     ≠ Some (Crypto.createHmac_sha256_base64 secret (Json.stringify (to_json (body req)))) →
     verifyWebhook env req next w = (Return unauthorized, w)).
Proof.
  intros Hsecret. rewrite verifyWebhook_eq. unfold signature_ok. rewrite Hsecret.
  split; intros Hheader.
  - rewrite bool_decide_eq_true_2 by exact Hheader. reflexivity.
  - rewrite bool_decide_eq_false_2 by exact Hheader. reflexivity.
Qed.

Lemma verify_respond {B : Type} `{JsonBody B} (req : Request B)
    (next : M P Response) (w : World P) :
  respond (verifyWebhook env req next) w
  = if signature_ok env req then respond next w
    else match SHOPIFY_WEBHOOK_SECRET env with
         | Some _ => (unauthorized, w)
         | None => ({| status := 500; payload := ErrorPage |}, w)
         end.
Proof.
  unfold respond. rewrite verifyWebhook_eq.
  unfold signature_ok.
  destruct (SHOPIFY_WEBHOOK_SECRET env) as [secret|]; [|reflexivity].
  destruct (bool_decide _); reflexivity.
Qed.

Lemma created_set (o : Order) (w : World P) :
  ∃ r w', order_created_handler env o w = (Return r, w')
          ∧ processedOrders w'
            = match tracking_key o with
              | Some key => {[key]} ∪ processedOrders w
              | None => processedOrders w
              end.
Proof.
  unfold tracking_key.
  destruct (line_items o) as [|n|l] eqn:Hitems, (id o) as [i|] eqn:Hid;
    try (unfold order_created_handler, updateInventoryForOrder, try_catch,
           mbind, M_bind, bind; rewrite Hitems, ?Hid; cbn;
         eexists _, _; split; reflexivity).
  destruct (created_run o i l w Hid Hitems) as (w' & Hrun & Hset & _). eauto.
Qed.


Lemma remove_absent (key : string) (S : gset string) : key ∉ S → S ∖ {[key]} = S.
Proof. set_solver. Qed.

Lemma cancelled_set (o : Order) (w : World P) :
  ∃ r w', order_cancelled_handler env o w = (Return r, w')
          ∧ (status r = 200
             ∧ (∃ i, id o = Some i
                     ∧ processedOrders w' = processedOrders w ∖ {[toString i]})
             ∨ status r = 500 ∧ processedOrders w' = processedOrders w).
Proof.
  destruct (id o) as [i|] eqn:Hid.
  2: { unfold order_cancelled_handler, try_catch, mbind, M_bind, bind.
       rewrite Hid. cbn. eexists _, _. split; [reflexivity|]. right. auto. }
  destruct (decide (toString i ∈ processedOrders w)) as [Hin|Hout].
  - destruct (line_items o) as [|n|l] eqn:Hitems.
    3: { destruct (cancelled_run o i l w Hid Hitems Hin) as (w' & Hrun & Hset & _).
         exists ok200, w'. split; [exact Hrun|]. left. eauto. }
    all: unfold order_cancelled_handler, try_catch, mbind, M_bind, bind,
           processedOrders_has;
         rewrite Hid, Hitems; cbn; rewrite bool_decide_eq_true_2 by exact Hin; cbn;
         eexists _, _; (split; [reflexivity|]); right; auto.
  - unfold order_cancelled_handler, try_catch, mbind, M_bind, bind, processedOrders_has.
    rewrite Hid. cbn. rewrite bool_decide_eq_false_2 by exact Hout. cbn.
    eexists _, _. split; [reflexivity|]. left. split; [reflexivity|].
    exists i. split; [reflexivity|]. cbn. symmetry. by apply remove_absent.
Qed.

Lemma fulfilled_set (o : Order) (w : World P) :
  ∃ r w', order_fulfilled_handler env o w = (Return r, w')
          ∧ (status r = 200
             ∧ (∃ i, id o = Some i
                     ∧ processedOrders w' = processedOrders w ∖ {[toString i]})
             ∨ status r = 500 ∧ processedOrders w' = processedOrders w).
Proof.
  destruct (id o) as [i|] eqn:Hid.
  2: { unfold order_fulfilled_handler, try_catch, mbind, M_bind, bind.
       rewrite Hid. cbn. eexists _, _. split; [reflexivity|]. right. auto. }
  destruct (decide (toString i ∈ processedOrders w)) as [Hin|Hout].
  - destruct (line_items o) as [|n|l] eqn:Hitems.
    3: { destruct (fulfilled_run o i l w Hid Hitems Hin) as (w' & Hrun & Hset & _).
         exists ok200, w'. split; [exact Hrun|]. left. eauto. }
    all: unfold order_fulfilled_handler, try_catch, mbind, M_bind, bind,
           processedOrders_has;
         rewrite Hid, Hitems; cbn; rewrite bool_decide_eq_true_2 by exact Hin; cbn;
         eexists _, _; (split; [reflexivity|]); right; auto.
  - unfold order_fulfilled_handler, try_catch, mbind, M_bind, bind, processedOrders_has.
    rewrite Hid. cbn. rewrite bool_decide_eq_false_2 by exact Hout. cbn.
    eexists _, _. split; [reflexivity|]. left. split; [reflexivity|].
    exists i. split; [reflexivity|]. cbn. symmetry. by apply remove_absent.
Qed.

Lemma handle_tracked (ev : Event) (w : World P) (key : string) :
  key ∈ processedOrders (handle_event env ev w).2
  ↔ step_tracked env ev (handle_event env ev w).1 key
      (bool_decide (key ∈ processedOrders w)) = true.
Proof.
  unfold step_tracked.
  destruct ev as [req|req|req|b]; cbn [handle_event marks unmarks].
  - unfold webhook_order_created. rewrite verify_respond.
    destruct (signature_ok env req); cbn.
    2: { destruct (SHOPIFY_WEBHOOK_SECRET env); cbn; by rewrite bool_decide_eq_true. }
    unfold respond.
    destruct (created_set (order (body req)) w) as (r & w' & -> & Hset). cbn. rewrite Hset.
    destruct (tracking_key (order (body req))) as [k|]; case_bool_decide; simplify_eq;
      rewrite ?bool_decide_eq_true; set_solver.
  - unfold webhook_order_cancelled. rewrite verify_respond.
    destruct (signature_ok env req); cbn.
    2: { destruct (SHOPIFY_WEBHOOK_SECRET env); cbn;
         rewrite andb_false_r; by rewrite bool_decide_eq_true. }
    unfold respond.
    destruct (cancelled_set (order (body req)) w) as (r & w' & -> & Hcase). cbn.
    destruct Hcase as [(-> & i & Hid & ->) | (-> & ->)]; cbn.
    + rewrite Hid, andb_true_r. cbn.
      case_bool_decide; simplify_eq; rewrite ?bool_decide_eq_true; set_solver.
    + rewrite andb_false_r. by rewrite bool_decide_eq_true.
  - unfold webhook_order_fulfilled. rewrite verify_respond.
    destruct (signature_ok env req); cbn.
    2: { destruct (SHOPIFY_WEBHOOK_SECRET env); cbn;
         rewrite andb_false_r; by rewrite bool_decide_eq_true. }
    unfold respond.
    destruct (fulfilled_set (order (body req)) w) as (r & w' & -> & Hcase). cbn.
    destruct Hcase as [(-> & i & Hid & ->) | (-> & ->)]; cbn.
    + rewrite Hid, andb_true_r. cbn.
      case_bool_decide; simplify_eq; rewrite ?bool_decide_eq_true; set_solver.
    + rewrite andb_false_r. by rewrite bool_decide_eq_true.
  - rewrite test_process_order_set. by rewrite bool_decide_eq_true.
Qed.

(** C1, as amended. From the start of the process and after any sequence
    of requests, an order identifier is in the Tracked Order Set if and
    only if an order-created webhook for it passed the signature check and
    reached the tracking step, and no order-cancelled or order-fulfilled
    webhook for it has been answered 200 since. Every operation preserves
    this ([handle_tracked] is the step). The signature check is the one
    [verifyWebhook] makes: the header against the digest of the whole
    parsed body, whatever properties it carries besides [id] and
    [line_items]. *)
Theorem tracked_set_follows_events (s : Shop P) (evs : list Event) (key : string) :
  key ∈ processedOrders (run_events env evs (boot s)).2
  ↔ tracked_after env (run_events env evs (boot s)).1 key false = true.
Proof.
  assert (∀ w : World P,
            key ∈ processedOrders (run_events env evs w).2
            ↔ tracked_after env (run_events env evs w).1 key
                (bool_decide (key ∈ processedOrders w)) = true) as Hfrom.
  { induction evs as [|ev evs IH]; intros w; cbn.
    - by rewrite bool_decide_eq_true.
    - pose proof (handle_tracked ev w key) as Hstep.
      destruct (handle_event env ev w) as [r w1]. specialize (IH w1).
      destruct (run_events env evs w1) as [h w2]. cbn in *. rewrite IH.
      set (next := step_tracked env ev r key _) in *.
      assert (bool_decide (key ∈ processedOrders w1) = next) as ->; [|reflexivity].
      destruct next.
      + apply bool_decide_eq_true_2, Hstep. reflexivity.
      + apply bool_decide_eq_false_2. intros Hin%Hstep. discriminate. }
  apply (Hfrom (boot s)).
Qed.

End Properties.

(** ** The rest of the service: edge cases, invariants, composition *)

Section Coverage_properties.

Context {P : Platform} (env : Env).
#[local] Existing Instance M_ret.
#[local] Existing Instance M_bind.

(** X2. [updateInventoryForVariant] never touches the Tracked Order Set
    and reports every failure in one form. It either returns, having
    written its "Inventory adjusted" line, or throws an [Error] whose
    message is "Inventory update failed: " followed by the cause, without
    that line; a [TypeError] raised inside never gets out as such. When
    the variant lookup is rejected with an HTTP status the cause is
    "Shopify API Error: <status> - <JSON of the response body>"; when it
    is rejected without a response the cause is the transport's message;
    when it resolves with a body in which [variant] is [undefined] or
    [null], or with the body [null], the cause is the message of the
    property read that threw. In each of these cases only that one request
    was sent. *)
Theorem updateInventoryForVariant_wraps_every_failure (v d : Z) (w : World P) :
  let '(r, w') := updateInventoryForVariant env v d w in
  processedOrders w' = processedOrders w
  ∧ (r = Return tt ∧ console w' = console w ++ [LogAdjusted v d]
     ∨ (∃ m, r = Throw (Error ("Inventory update failed: " +:+ m)))
       ∧ console w' = console w)
  ∧ (∀ code body s1,
       axios P (variant_request env v) (shop w) = (HttpFailure code body, s1) →
       r = Throw (Error ("Inventory update failed: Shopify API Error: "
                           +:+ Js.Number_toString code +:+ " - " +:+ Json.stringify body))
       ∧ calls w' = calls w ++ [variant_request env v] ∧ shop w' = s1)
  ∧ (∀ msg s1,
       axios P (variant_request env v) (shop w) = (NetworkFailure msg, s1) →
       r = Throw (Error ("Inventory update failed: " +:+ msg))
       ∧ calls w' = calls w ++ [variant_request env v] ∧ shop w' = s1)
  ∧ (∀ fields s1,
       axios P (variant_request env v) (shop w)
       = (Resolved (OtherData (Json.Obj fields)), s1) →
       Json.lookup_field "variant" fields = None →
       r = Throw (Error ("Inventory update failed: "
                           +:+ "Cannot read properties of undefined (reading 'inventory_item_id')"))
       ∧ calls w' = calls w ++ [variant_request env v] ∧ shop w' = s1)
  ∧ (∀ fields s1,
       axios P (variant_request env v) (shop w)
       = (Resolved (OtherData (Json.Obj fields)), s1) →
       Json.lookup_field "variant" fields = Some Json.Null →
       r = Throw (Error ("Inventory update failed: "
                           +:+ "Cannot read properties of null (reading 'inventory_item_id')"))
       ∧ calls w' = calls w ++ [variant_request env v] ∧ shop w' = s1)
  ∧ (∀ s1,
       axios P (variant_request env v) (shop w) = (Resolved (OtherData Json.Null), s1) →
       r = Throw (Error ("Inventory update failed: "
                           +:+ "Cannot read properties of null (reading 'variant')"))
       ∧ calls w' = calls w ++ [variant_request env v] ∧ shop w' = s1).
Proof.
  rewrite updateInventoryForVariant_adjust.
  destruct (adjust_effect env v d w) as (g & Hset & _ & _ & Hout).
  pose proof (eq_refl (adjust env v d w)) as Hrun. revert Hrun.
  unfold adjust at 2.
  destruct (adjust env v d w) as [r w'] eqn:E. cbn in Hset, Hout.
  intros Hrun. split_and!; [exact Hset | exact Hout | | | | |].
  - intros code body s1 H1. rewrite H1 in Hrun. cbn in Hrun.
    injection Hrun as -> ->. cbn. auto.
  - intros msg s1 H1. rewrite H1 in Hrun. cbn in Hrun.
    injection Hrun as -> ->. cbn. auto.
  - intros fields s1 H1 Hnone. rewrite H1 in Hrun. cbn in Hrun. rewrite Hnone in Hrun.
    injection Hrun as -> ->. cbn. auto.
  - intros fields s1 H1 Hnull. rewrite H1 in Hrun. cbn in Hrun. rewrite Hnull in Hrun.
    injection Hrun as -> ->. cbn. auto.
  - intros s1 H1. rewrite H1 in Hrun. cbn in Hrun.
    injection Hrun as -> ->. cbn. auto.
Qed.

(** X3. Order-created on bodies that are not an order with line items.
    Without [line_items] the answer is 500 and nothing changed; without
    [id] the answer is 500 and nothing changed; with an [id] and
    [line_items] that is a number the answer is 500, yet the order is
    tracked from then on although nothing was deducted; with an [id] and
    an empty array the answer is 200, the order is tracked and no request
    was sent. *)
Theorem order_created_malformed_body (o : Order) (w : World P) :
  (line_items o = NoItems → respond (order_created_handler env o) w = (error500, w))
  ∧ (id o = None → respond (order_created_handler env o) w = (error500, w))
  ∧ (∀ i n, id o = Some i → line_items o = ItemsNumber n →
       respond (order_created_handler env o) w = (error500, remember (toString i) w))
  ∧ (∀ i, id o = Some i → line_items o = ItemsArray [] →
       respond (order_created_handler env o) w = (ok200, remember (toString i) w)).
Proof.
  unfold respond, order_created_handler, updateInventoryForOrder, try_catch,
    mbind, M_bind, bind.
  split_and!.
  - intros ->. reflexivity.
  - intros ->. by destruct (line_items o).
  - intros i n -> ->. reflexivity.
  - intros i -> ->. reflexivity.
Qed.

(** X4. Order-cancelled and order-fulfilled on malformed bodies. Without
    [id] the answer is 500 and nothing changed. For a tracked order whose
    [line_items] is not an array the answer is 500, no request is sent and
    the order stays tracked: the event is not consumed. *)
Theorem terminal_event_malformed_body (fulfilled : bool) (o : Order) (w : World P) :
  (id o = None → respond (terminal_handler env fulfilled o) w = (error500, w))
  ∧ (∀ i, id o = Some i → toString i ∈ processedOrders w →
       (∀ l, line_items o ≠ ItemsArray l) →
       respond (terminal_handler env fulfilled o) w = (error500, w)).
Proof.
  unfold respond, terminal_handler, order_cancelled_handler, order_fulfilled_handler,
    try_catch, mbind, M_bind, bind, processedOrders_has.
  split.
  - intros ->. by destruct fulfilled.
  - intros i -> Hin Hno.
    destruct fulfilled; cbn; rewrite bool_decide_eq_true_2 by exact Hin; cbn;
      (destruct (line_items o) as [|n|l]; [reflexivity | reflexivity | by destruct (Hno l)]).
Qed.

Lemma terminal_skip (fulfilled : bool) (o : Order) (i : OrderId) (w : World P) :
  id o = Some i → toString i ∉ processedOrders w →
  terminal_handler env fulfilled o w
  = (Return ok200, logged (LogSkipped (toString i)) w).
Proof.
  intros Hid Hout.
  unfold terminal_handler, order_cancelled_handler, order_fulfilled_handler,
    try_catch, mbind, M_bind, bind, processedOrders_has.
  rewrite Hid.
  destruct fulfilled; cbn; rewrite bool_decide_eq_false_2 by exact Hout; reflexivity.
Qed.

Lemma terminal_run (fulfilled : bool) (o : Order) (i : OrderId) (l : list LineItem)
    (w : World P) :
  id o = Some i → line_items o = ItemsArray l → toString i ∈ processedOrders w →
  ∃ w', terminal_handler env fulfilled o w = (Return ok200, w')
        ∧ processedOrders w' = processedOrders w ∖ {[toString i]}
        ∧ loop_trace env (if fulfilled then AtFulfil else AtCancel) (fun q => q) l w w'.
Proof.
  intros Hid Hitems Hin. destruct fulfilled; cbn.
  - by apply fulfilled_run.
  - by apply cancelled_run.
Qed.

(** X5. A tracked order is compensated once. After order-cancelled or
    order-fulfilled ([first]) of a tracked order has been processed, a
    further order-cancelled or order-fulfilled ([second]) carrying the same
    identifier is answered 200 and only writes the skip line: no request
    is sent, the shop and the set stay as they were. This holds for the
    four orders of arrival of the two events. *)
Theorem terminal_event_compensates_once (first second : bool) (o o' : Order)
    (i i' : OrderId) (l : list LineItem) (w : World P) :
  id o = Some i → line_items o = ItemsArray l → toString i ∈ processedOrders w →
  id o' = Some i' → toString i' = toString i →
  ∃ w1, respond (terminal_handler env first o) w = (ok200, w1)
        ∧ respond (terminal_handler env second o') w1
          = (ok200, logged (LogSkipped (toString i)) w1).
Proof.
  intros Hid Hitems Hin Hid' Hkey.
  destruct (terminal_run first o i l w Hid Hitems Hin) as (w1 & Hrun & Hset & _).
  exists w1. unfold respond. rewrite Hrun. split; [reflexivity|].
  rewrite (terminal_skip second o' i' w1 Hid'), Hkey; [reflexivity|].
  rewrite Hset, Hkey. set_solver.
Qed.

Lemma handle_other_key (ev : Event) (w : World P) (key : string) :
  event_key ev ≠ Some key →
  key ∈ processedOrders (handle_event env ev w).2 ↔ key ∈ processedOrders w.
Proof.
  intros Hother. rewrite handle_tracked. unfold step_tracked.
  assert (marks env ev key = false) as ->.
  { destruct ev as [req|req|req|b]; cbn in *; try reflexivity.
    apply andb_false_intro2, bool_decide_eq_false_2.
    unfold tracking_key. destruct (line_items (order (body req))); [discriminate | exact Hother ..]. }
  assert (unmarks ev (handle_event env ev w).1 key = false) as ->.
  { destruct ev as [req|req|req|b]; cbn in *; try reflexivity;
      apply andb_false_intro1, bool_decide_eq_false_2; exact Hother. }
  apply bool_decide_eq_true.
Qed.

(** X6. Requests about other orders leave the tracking of an order
    alone: over any sequence of requests in which no webhook, signed or
    not, carries the identifier [key] (calls of the test endpoint may
    carry any), [key] is tracked afterwards exactly when it was tracked
    before. In particular a tracked order is never evicted. *)
Theorem other_orders_keep_their_tracking (evs : list Event) (w : World P) (key : string) :
  Forall (fun ev => event_key ev ≠ Some key) evs →
  key ∈ processedOrders (run_events env evs w).2 ↔ key ∈ processedOrders w.
Proof.
  intros Hall. revert w. induction Hall as [|ev evs Hev _ IH]; intros w; [reflexivity|].
  cbn. pose proof (handle_other_key ev w key Hev) as Hstep.
  destruct (handle_event env ev w) as [r w1]. specialize (IH w1).
  destruct (run_events env evs w1) as [h w2]. cbn in *. by rewrite IH.
Qed.

(** X7. Identifiers are compared as strings. An order created with the
    numeric identifier [n] is found tracked by an order-cancelled or
    order-fulfilled webhook that carries, as a string, what
    [order.id.toString()] prints for [n] (the decimal digits of [n] up to
    2^53; beyond that the digits JavaScript prints for the nearest
    Number): the webhook adjusts by +quantity for each of its own line
    items and untracks the order. *)
Theorem number_and_string_ids_share_tracking (n : Z) (o o' : Order)
    (l l' : list LineItem) (fulfilled : bool) (w : World P) :
  id o = Some (IdNum n) → line_items o = ItemsArray l →
  id o' = Some (IdStr (Js.Number_toString n)) → line_items o' = ItemsArray l' →
  ∃ w1 w2, respond (order_created_handler env o) w = (ok200, w1)
           ∧ respond (terminal_handler env fulfilled o') w1 = (ok200, w2)
           ∧ loop_trace env (if fulfilled then AtFulfil else AtCancel) (fun q => q) l' w1 w2
           ∧ processedOrders w2 = processedOrders w ∖ {[Js.Number_toString n]}.
Proof.
  intros Hid Hitems Hid' Hitems'.
  destruct (created_run env o _ l w Hid Hitems) as (w1 & Hrun & Hset & _).
  change (toString (IdNum n)) with (Js.Number_toString n) in Hset.
  assert (toString (IdStr (Js.Number_toString n)) ∈ processedOrders w1) as Hin.
  { rewrite Hset. change (toString (IdStr (Js.Number_toString n))) with (Js.Number_toString n).
    set_solver. }
  destruct (terminal_run fulfilled o' _ l' w1 Hid' Hitems' Hin) as (w2 & Hrun2 & Hset2 & Htrace).
  exists w1, w2. unfold respond. rewrite Hrun, Hrun2.
  split_and!; [reflexivity | reflexivity | exact Htrace |].
  rewrite Hset2, Hset.
  change (toString (IdStr (Js.Number_toString n))) with (Js.Number_toString n).
  set_solver.
Qed.

Lemma item_calls_budget (v d : Z) (g : list AxiosConfig) :
  item_calls env v d g →
  (1 ≤ length g ≤ 3)%nat
  ∧ (length (List.filter is_post g) ≤ 1)%nat
  ∧ ∀ c, c ∈ g → is_post c = true → ∃ loc item, c = adjust_request env loc item d.
Proof.
  intros [-> | [(item & ->) | (item & loc & ->)]]; cbn; (split_and!; [lia | lia | lia |]);
    intros c Hc Hpost; set_unfold; destruct_or!; subst; try discriminate; eauto.
Qed.

Lemma groups_budget (sign : Z → Z) (l : list LineItem) (groups : list (list AxiosConfig)) :
  Forall2 (fun li g => item_calls env (variant_id li) (sign (quantity li)) g) l groups →
  within_budget l (concat groups) ∧ adjusts_only env sign l (concat groups).
Proof.
  unfold within_budget, adjusts_only.
  induction 1 as [|li g l groups Hg _ IH]; cbn.
  - split; [lia|]. intros c Hc. by apply elem_of_nil in Hc.
  - destruct (item_calls_budget _ _ _ Hg) as (Hlen & Hposts & Hadj).
    destruct IH as ((Hlo & Hhi) & IHadj).
    rewrite List.filter_app, !length_app. split; [lia|].
    intros c Hc Hpost. apply elem_of_app in Hc as [Hc|Hc].
    + destruct (Hadj c Hc Hpost) as (loc & item & ->).
      exists li, loc, item. split; [apply elem_of_cons; by left | reflexivity].
    + destruct (IHadj c Hc Hpost) as (li' & loc & item & Hin & ->).
      exists li', loc, item. split; [apply elem_of_cons; by right | reflexivity].
Qed.

(** X8. What a webhook may send. For an order with an identifier and an
    array of line items, order-created sends at least one and at most
    three requests per line item, at most one of them a POST, and every
    POST is an adjustment by -quantity of one of the line items; the same
    holds with +quantity for order-cancelled and order-fulfilled of a
    tracked order. *)
Theorem webhook_requests_bounded (o : Order) (i : OrderId) (l : list LineItem)
    (w : World P) :
  id o = Some i → line_items o = ItemsArray l →
  (∃ w' new, respond (order_created_handler env o) w = (ok200, w')
             ∧ calls w' = calls w ++ new
             ∧ within_budget l new ∧ adjusts_only env Z.opp l new)
  ∧ (toString i ∈ processedOrders w → ∀ fulfilled,
       ∃ w' new, respond (terminal_handler env fulfilled o) w = (ok200, w')
                 ∧ calls w' = calls w ++ new
                 ∧ within_budget l new ∧ adjusts_only env (fun q => q) l new).
Proof.
  intros Hid Hitems. split.
  - destruct (created_run env o i l w Hid Hitems)
      as (w' & Hrun & _ & groups & lines & Hcalls & Hgroups & _).
    exists w', (concat groups). unfold respond. rewrite Hrun.
    destruct (groups_budget _ _ _ Hgroups). auto.
  - intros Hin fulfilled.
    destruct (terminal_run fulfilled o i l w Hid Hitems Hin)
      as (w' & Hrun & _ & groups & lines & Hcalls & Hgroups & _).
    exists w', (concat groups). unfold respond. rewrite Hrun.
    destruct (groups_budget (fun q => q) _ _ Hgroups). auto.
Qed.

Lemma adjust_outcome (v d : Z) (w : World P) :
  ∃ g, calls (adjust env v d w).2 = calls w ++ g
       ∧ ((adjust env v d w).1 = Return tt ∧ adjustment_calls env v d g
          ∨ (∃ m, (adjust env v d w).1 = Throw (Error ("Inventory update failed: " +:+ m)))
            ∧ item_calls env v d g).
Proof.
  unfold adjust, item_calls, adjustment_calls.
  destruct (axios P _ (shop w)) as [[[i|ls|j]|c b|m] s1]; cbn;
    try (eexists; split; [reflexivity | right; split; [eauto | left; reflexivity]]).
  destruct (axios P _ s1) as [[[i'|[|l ls]|j]|c b|m] s2]; cbn;
    try (eexists; split;
         [rewrite <- app_assoc; reflexivity | right; split; [eauto | right; left; eauto]]).
  destruct (axios P _ s2) as [[d3|c b|m] s3]; cbn;
    (eexists; split; [rewrite <- !app_assoc; reflexivity |]);
    [left; eauto | right; split; [eauto | right; right; eauto] ..].
Qed.

Lemma test_loop_requests (l : list LineItem) (w : World P) :
  ∃ k r w' done last, for_of l (test_step env) w = (r, w')
    ∧ calls w' = calls w ++ concat done ++ last
    ∧ Forall2 (fun li g => adjustment_calls env (variant_id li) (- quantity li) g)
        (take k l) done
    ∧ (r = Return tt ∧ k = length l ∧ last = []
       ∨ (∃ m, r = Throw (Error ("Inventory update failed: " +:+ m)))
         ∧ ∃ li, l !! k = Some li ∧ item_calls env (variant_id li) (- quantity li) last).
Proof.
  revert w. induction l as [|li l IH]; intros w.
  - exists 0%nat, (Return tt), w, [], []. cbn. rewrite app_nil_r. split_and!; auto.
  - cbn. unfold mbind, M_bind, bind. unfold test_step at 1.
    unfold mbind, M_bind, bind. rewrite updateInventoryForVariant_adjust.
    destruct (adjust_outcome (variant_id li) (- quantity li) w) as (g & Hcalls & Hout).
    destruct (adjust env _ _ w) as [r1 w1]; cbn in *.
    destruct Hout as [[-> Hg] | [[m ->] Hg]]; cbn.
    + match goal with |- context [for_of l (test_step env) ?w2] =>
        destruct (IH w2) as (k & r & w' & done & last & -> & Hcalls' & Hdone & Hk) end.
      exists (S k), r, w', (g :: done), last. cbn in *. split_and!; auto.
      * rewrite Hcalls', Hcalls, <- !app_assoc. reflexivity.
      * destruct Hk as [(-> & -> & ->) | [Hm Hli]]; [left; auto | right; auto].
    + exists 0%nat. eexists _, _, [], g. cbn. split_and!; [reflexivity | exact Hcalls | constructor |].
      right. split; [eauto|]. exists li. auto.
Qed.

(** X9. The requests of the test endpoint. With a truthy [orderId] and an
    array of line items, the first [k] line items each had their three
    requests sent; on 200 these are all the line items and nothing else
    was sent; on 500 line item [k] is the one that failed, its requests
    are the last ones sent, and no request was sent for the line items
    after it. With [lineItems] a number other than zero the answer is 500
    "lineItems is not iterable" and nothing happened. *)
Theorem test_process_order_requests (b : TestBody) (w : World P) :
  truthy_id (orderId b) = true →
  let '(r, w') := test_process_order env b w in
  (∀ l, lineItems b = ItemsArray l →
     ∃ k done last,
       calls w' = calls w ++ concat done ++ last
       ∧ Forall2 (fun li g => adjustment_calls env (variant_id li) (- quantity li) g)
           (take k l) done
       ∧ (status r = 200 ∧ k = length l ∧ last = []
          ∨ status r = 500
            ∧ ∃ li, l !! k = Some li
                    ∧ item_calls env (variant_id li) (- quantity li) last))
  ∧ (∀ n, lineItems b = ItemsNumber n → n ≠ 0 →
       r = {| status := 500; payload := JsonError "lineItems is not iterable" |}
       ∧ w' = w).
Proof.
  intros Hid.
  unfold test_process_order, respond, test_process_order_handler,
    try_catch, mbind, M_bind, bind.
  rewrite Hid. cbn.
  destruct (lineItems b) as [|n|l] eqn:Hitems; cbn.
  - split; [intros l [=] | intros n [=]].
  - destruct (n =? 0) eqn:Hn; cbn.
    + apply Z.eqb_eq in Hn. split; [intros l [=] | intros n' [= <-] Hne; contradiction].
    + split; [intros l [=] | intros n' [= <-] _; split; reflexivity].
  - change (for_of l _ w) with (for_of l (test_step env) w).
    destruct (test_loop_requests l w) as (k & r & w' & done & last & -> & Hcalls & Hdone & Hk).
    destruct Hk as [(-> & -> & ->) | [[m ->] Hli]]; cbn.
    + split; [|intros n [=]]. intros l' [= <-]. exists (length l), done, [].
      split_and!; [exact Hcalls | exact Hdone | left; auto].
    + split; [|intros n [=]]. intros l' [= <-]. exists k, done, last.
      split_and!; [exact Hcalls | exact Hdone | right; auto].
Qed.

(** X10. Without [SHOPIFY_WEBHOOK_SECRET] in the environment no webhook
    gets through: computing the digest throws in the middleware, the three
    webhook routes answer 500 whatever the request, and nothing changes. *)
Theorem webhooks_need_the_secret (req : Request Webhook) (w : World P) :
  SHOPIFY_WEBHOOK_SECRET env = None →
  webhook_order_created env req w = ({| status := 500; payload := ErrorPage |}, w)
  ∧ webhook_order_cancelled env req w = ({| status := 500; payload := ErrorPage |}, w)
  ∧ webhook_order_fulfilled env req w = ({| status := 500; payload := ErrorPage |}, w).
Proof.
  intros Hsecret.
  unfold webhook_order_created, webhook_order_cancelled, webhook_order_fulfilled.
  rewrite !verify_respond. unfold signature_ok. rewrite Hsecret. auto.
Qed.

(** X11. [GET /test-connection] always answers: it sends exactly one
    request, the GET of [shop.json], and leaves the Tracked Order Set and
    the console alone. The answer is 200 exactly when the platform
    resolved with a body whose [shop] is neither [undefined] nor [null],
    and 500 with [{status: 'failed', error}] otherwise. When [shop] is an
    object the 200 body carries its [name] and [domain], each left out
    when [undefined]; when the request was rejected the [error] is the
    failure's message. *)
Theorem test_connection_probes_once (w : World P) :
  ∃ r w', test_connection_handler env w = (Return r, w')
    ∧ processedOrders w' = processedOrders w
    ∧ console w' = console w
    ∧ calls w' = calls w ++ [shop_request env]
    ∧ shop w' = (axios P (shop_request env) (shop w)).2
    ∧ (reply_status r = 200
         ∧ (∃ d s, (axios P (shop_request env) (shop w)).1 = Resolved d
                   ∧ shop_of d = Some s ∧ s ≠ Json.Null)
       ∨ reply_status r = 500
         ∧ (∃ m, reply_json r = Json.Obj [("status", Json.Str "failed");
                                           ("error", Json.Str m)])
         ∧ ¬ (∃ d s, (axios P (shop_request env) (shop w)).1 = Resolved d
                     ∧ shop_of d = Some s ∧ s ≠ Json.Null))
    ∧ (∀ d fields, (axios P (shop_request env) (shop w)).1 = Resolved d →
         shop_of d = Some (Json.Obj fields) →
         reply_json r
         = Json.Obj ([("status", Json.Str "connected")]
                       ++ json_field "shop" (Json.lookup_field "name" fields)
                       ++ json_field "domain" (Json.lookup_field "domain" fields)))
    ∧ (∀ failure, (axios P (shop_request env) (shop w)).1 = failure →
         (∀ d, failure ≠ Resolved d) →
         reply_json r = Json.Obj [("status", Json.Str "failed");
                                  ("error", Json.Str (failure_message failure))]).
Proof.
  unfold test_connection_handler, try_catch, mbind, M_bind, bind, shopifyAPI, shop_of.
  change {| method := GET;
            url := "https://" +:+ SHOPIFY_SHOP_DOMAIN env +:+ "/admin/api/2023-10/shop.json";
            access_token := SHOPIFY_ACCESS_TOKEN env; data := None |}
    with (shop_request env).
  destruct (axios P (shop_request env) (shop w)) as [[d|code b|m] s1]; cbn [fst snd].
  2,3: eexists _, _; split; [reflexivity|]; cbn;
       (split_and!; [reflexivity | reflexivity | reflexivity | reflexivity | | |]);
       [ right; split_and!; [reflexivity | eauto | intros (d & s & [=] & _)]
       | intros d fields [=]
       | intros failure <- _; reflexivity ].
  assert (∀ failure : AxiosResult, Resolved d = failure → (∀ d', failure ≠ Resolved d') →
            ∀ X : Prop, X) as Hres.
  { intros failure <- Hne. by destruct (Hne d). }
  destruct (response_json d) as [|b0|n0|s0|items0|fields0] eqn:Hjson; cbn;
    try (eexists _, _; split; [reflexivity|]; cbn;
         (split_and!; [reflexivity | reflexivity | reflexivity | reflexivity | | |]);
         [ right; split_and!; [reflexivity | eauto | intros (d' & s & [= <-] & Hs & _)];
           rewrite Hjson in Hs; discriminate
         | intros d' fields [= <-]; rewrite Hjson; discriminate
         | intros failure Hf Hne; exact (Hres failure Hf Hne _) ]).
  destruct (Json.lookup_field "shop" fields0) as [[|b2|n2|s2|items2|fields]|] eqn:Hshop; cbn;
    (eexists _, _; split; [reflexivity|]; cbn;
     (split_and!; [reflexivity | reflexivity | reflexivity | reflexivity | | |]);
     [ | intros d' fs [= <-]; rewrite Hjson, Hshop; intros [=]; subst; try reflexivity
       | intros failure Hf Hne; exact (Hres failure Hf Hne _) ]).
  1: right; split_and!; [reflexivity | eauto |].
  1: intros (d' & s & [= <-] & Hs & Hnull); rewrite Hjson, Hshop in Hs; congruence.
  1-5: left; split; [reflexivity|]; exists d; eexists; rewrite Hjson, Hshop;
       (split_and!; [reflexivity | reflexivity | discriminate]).
  right; split_and!; [reflexivity | eauto |].
  intros (d' & s & [= <-] & Hs & Hnull); rewrite Hjson, Hshop in Hs; congruence.
Qed.

Lemma created_v1_run (o : Order) (l : list LineItem) (w : World P) :
  line_items o = ItemsArray l →
  ∃ w', order_created_handler_v1 env o w = (Return ok200, w')
        ∧ processedOrders w' = processedOrders w
        ∧ loop_trace env AtCreate Z.opp l w w'.
Proof.
  intros Hitems.
  unfold order_created_handler_v1, updateInventoryForOrder_v1, try_catch,
    mbind, M_bind, bind.
  rewrite Hitems. cbn.
  match goal with
  | |- context [for_of l ?f ?w1] =>
      change (for_of l f w1) with (for_of l (attempt env AtCreate Z.opp) w1);
      destruct (for_of_attempt env AtCreate Z.opp l w1) as (w' & -> & Hset & Htrace)
  end.
  exists w'. split_and!; [reflexivity | exact Hset | exact Htrace].
Qed.

(** X12. The first listing of [server.js] against the second. The first
    order-created handler never changes the Tracked Order Set. On a body
    with an [id] the two handlers give the same response, the same shop
    state, the same requests and the same console lines. On a body without
    [id] they differ: the second answers 500 and does nothing, while the
    first, given an array of line items, answers 200 and deducts them. *)
Theorem first_listing_differs_by_tracking (o : Order) (w : World P) :
  let '(r1, w1) := respond (order_created_handler_v1 env o) w in
  let '(r2, w2) := respond (order_created_handler env o) w in
  processedOrders w1 = processedOrders w
  ∧ (id o ≠ None →
     r1 = r2 ∧ shop w1 = shop w2 ∧ calls w1 = calls w2 ∧ console w1 = console w2)
  ∧ (id o = None →
     r2 = error500 ∧ w2 = w
     ∧ ∀ l, line_items o = ItemsArray l →
         r1 = ok200 ∧ loop_trace env AtCreate Z.opp l w w1).
Proof.
  destruct (line_items o) as [|n|l] eqn:Hitems.
  1,2: unfold respond, order_created_handler_v1, updateInventoryForOrder_v1,
         order_created_handler, updateInventoryForOrder, try_catch, mbind, M_bind, bind;
       rewrite Hitems; cbn; destruct (id o) as [i|]; cbn;
       (split_and!; [reflexivity | auto | intros; split_and!; try reflexivity; try discriminate]);
       intros l [=].
  destruct (created_v1_run o l w Hitems) as (w1 & Hrun1 & Hset1 & Htrace1).
  destruct (id o) as [i|] eqn:Hid.
  - unfold respond. rewrite Hrun1.
    pose proof Hrun1 as Hrun1'. revert Hrun1'.
    unfold order_created_handler_v1, updateInventoryForOrder_v1,
      order_created_handler, updateInventoryForOrder, try_catch, mbind, M_bind, bind.
    rewrite Hid, Hitems. cbn.
    repeat match goal with
    | |- context [for_of l ?f ?w] =>
        lazymatch f with
        | attempt env _ _ => fail
        | _ => change (for_of l f w) with (for_of l (attempt env AtCreate Z.opp) w)
        end
    end.
    match goal with
    | |- context [for_of l _ w] =>
        match goal with
        | |- context [for_of l _ ?b] =>
            lazymatch b with
            | w => fail
            | _ =>
                destruct (for_of_agree env (fun x => x) AtCreate AtCreate Z.opp
                            (fun _ _ => eq_refl) (fun _ _ => eq_refl) (fun _ _ => eq_refl)
                            (console w) (console w) l w b)
                  as (u1 & u2 & -> & -> & (Hs' & Hc' & n & Hn1 & Hn2) & _)
            end
        end
    end.
    + split_and!; [reflexivity | reflexivity |]. exists []. cbn. rewrite !app_nil_r. auto.
    + cbn. intros [= <-]. split_and!; [exact Hset1 | | intros [=]].
      intros _. split_and!; auto. rewrite Hn1, Hn2, map_id. reflexivity.
  - unfold respond. rewrite Hrun1.
    unfold order_created_handler, updateInventoryForOrder, try_catch, mbind, M_bind, bind.
    rewrite Hid, Hitems. cbn.
    split_and!; [exact Hset1 | intros Hne; by destruct Hne |].
    intros _. split_and!; [reflexivity | reflexivity |].
    intros l' [= <-]. auto.
Qed.

Lemma confined_ret {A : Type} (a : A) : confined env (ret a : M P A).
Proof. intros w. exists []. cbn. by rewrite app_nil_r. Qed.

Lemma confined_throw {A : Type} (e : Exn) : confined env (throw e : M P A).
Proof. intros w. exists []. cbn. by rewrite app_nil_r. Qed.

Lemma confined_bind {A B : Type} (m : M P A) (k : A → M P B) :
  confined env m → (∀ a, confined env (k a)) → confined env (bind m k).
Proof.
  intros Hm Hk w. unfold bind. destruct (Hm w) as (n1 & H1 & F1).
  destruct (m w) as [[a|e] w1]; cbn in *.
  - destruct (Hk a w1) as (n2 & H2 & F2). exists (n1 ++ n2).
    rewrite H2, H1, <- app_assoc. split; [reflexivity | by apply Forall_app].
  - eauto.
Qed.

Lemma confined_try_catch {A : Type} (m : M P A) (h : Exn → M P A) :
  confined env m → (∀ e, confined env (h e)) → confined env (try_catch m h).
Proof.
  intros Hm Hh w. unfold try_catch. destruct (Hm w) as (n1 & H1 & F1).
  destruct (m w) as [[a|e] w1]; cbn in *.
  - eauto.
  - destruct (Hh e w1) as (n2 & H2 & F2). exists (n1 ++ n2).
    rewrite H2, H1, <- app_assoc. split; [reflexivity | by apply Forall_app].
Qed.

Lemma confined_for_of {A : Type} (l : list A) (body : A → M P unit) :
  (∀ a, confined env (body a)) → confined env (for_of l body).
Proof.
  intros Hbody. induction l as [|a l IH]; cbn.
  - apply confined_ret.
  - apply confined_bind; auto.
Qed.

Lemma confined_console_log (l : LogLine) : confined env (console_log l : M P unit).
Proof. intros w. exists []. cbn. by rewrite app_nil_r. Qed.

Lemma confined_add (key : string) : confined env (processedOrders_add key : M P unit).
Proof. intros w. exists []. cbn. by rewrite app_nil_r. Qed.

Lemma confined_delete (key : string) : confined env (processedOrders_delete key : M P unit).
Proof. intros w. exists []. cbn. by rewrite app_nil_r. Qed.

Lemma confined_has (key : string) : confined env (processedOrders_has key : M P bool).
Proof. intros w. exists []. cbn. by rewrite app_nil_r. Qed.

Lemma confined_shopifyAPI (rest : string) (m : Method) (d : option Adjustment) :
  confined env (shopifyAPI env ("/admin/api/2023-10/" +:+ rest) m d : M P ResponseData).
Proof.
  intros w. unfold shopifyAPI.
  destruct (axios P _ (shop w)) as [[r|c b|msg] s1]; cbn;
    (eexists [_]; split; [reflexivity|]; apply Forall_singleton; split; cbn; eauto).
Qed.

Ltac confine :=
  repeat first
    [ apply confined_ret | apply confined_throw | apply confined_console_log
    | apply confined_add | apply confined_delete | apply confined_has
    | apply confined_try_catch; [|intros ?]
    | apply confined_for_of; intros ?
    | apply confined_bind; [|intros ?]
    | apply (confined_shopifyAPI _ _ _)
    | match goal with
      | |- confined _ (match ?x with _ => _ end) => destruct x
      | |- confined _ (if ?x then _ else _) => destruct x
      end
    | progress unfold read_inventory_item_id, read_inventory_levels, id_toString,
        items_length, iterate, send, createHmac ].

Lemma confined_updateInventoryForVariant (v d : Z) :
  confined env (updateInventoryForVariant env v d : M P unit).
Proof. unfold updateInventoryForVariant, mbind, M_bind. confine. Qed.

Lemma confined_order_created_handler (o : Order) :
  confined env (order_created_handler env o : M P Response).
Proof.
  pose proof confined_updateInventoryForVariant.
  unfold order_created_handler, updateInventoryForOrder, mbind, M_bind. confine; auto.
Qed.

Lemma confined_terminal_handler (fulfilled : bool) (o : Order) :
  confined env (terminal_handler env fulfilled o : M P Response).
Proof.
  pose proof confined_updateInventoryForVariant.
  unfold terminal_handler, order_cancelled_handler, order_fulfilled_handler, mbind, M_bind.
  confine; auto.
Qed.

Lemma confined_test_process_order_handler (b : TestBody) :
  confined env (test_process_order_handler env b : M P Response).
Proof.
  pose proof confined_updateInventoryForVariant.
  unfold test_process_order_handler, mbind, M_bind. confine; auto.
Qed.

Lemma confined_verifyWebhook {B : Type} `{JsonBody B} (req : Request B) (next : M P Response) :
  confined env next → confined env (verifyWebhook env req next).
Proof. intros Hnext. unfold verifyWebhook, mbind, M_bind. confine; auto. Qed.

Lemma confined_respond (m : M P Response) (w : World P) :
  confined env m →
  ∃ new, calls (respond m w).2 = calls w ++ new ∧ Forall (service_request env) new.
Proof.
  intros Hm. unfold respond. destruct (Hm w) as (new & Hcalls & Hnew).
  exists new. by destruct (m w) as [[r|e] w'].
Qed.

Lemma handle_event_confined (ev : Event) (w : World P) :
  ∃ new, calls (handle_event env ev w).2 = calls w ++ new
         ∧ Forall (service_request env) new.
Proof.
  destruct ev as [req|req|req|b]; cbn [handle_event]; apply confined_respond.
  - apply confined_verifyWebhook, confined_order_created_handler.
  - apply confined_verifyWebhook, (confined_terminal_handler false).
  - apply confined_verifyWebhook, (confined_terminal_handler true).
  - apply confined_test_process_order_handler.
Qed.

(** X13. Whatever requests the service is sent, in any number and
    order, everything it sends goes to the admin API of the configured
    shop domain ([https://<SHOPIFY_SHOP_DOMAIN>/admin/api/2023-10/...])
    and carries the configured access token; the requests already sent are
    never rewritten. *)
Theorem requests_stay_with_the_shop (evs : list Event) (w : World P) :
  ∃ new, calls (run_events env evs w).2 = calls w ++ new
         ∧ Forall (service_request env) new.
Proof.
  revert w. induction evs as [|ev evs IH]; intros w.
  - exists []. cbn. by rewrite app_nil_r.
  - cbn. destruct (handle_event_confined ev w) as (n1 & H1 & F1).
    destruct (handle_event env ev w) as [r w1]. destruct (IH w1) as (n2 & H2 & F2).
    destruct (run_events env evs w1) as [h w2]. cbn in *.
    exists (n1 ++ n2). rewrite H2, H1, <- app_assoc.
    split; [reflexivity | by apply Forall_app].
Qed.

End Coverage_properties.

(** ** The service on the demo shop *)

(** C5. The request carries the HMAC-SHA256 of the exact bytes received,
    yet [verifyWebhook] answers 401 and never calls the handler: it hashes
    [JSON.stringify(req.body)], which is not the text received as soon as
    that text holds an escape (here [&] written as a unicode escape). *)
Theorem verifyWebhook_rejects_genuine_signature :
  Json.express_json (raw_body Demo.genuine_request) = Some (body Demo.genuine_request)
  ∧ hmac_header Demo.genuine_request
    = Some (Crypto.createHmac_sha256_base64 "hush" (raw_body Demo.genuine_request))
  ∧ Json.stringify (body Demo.genuine_request) ≠ raw_body Demo.genuine_request
  ∧ ∀ (next : M Demo.platform Response) (w : World Demo.platform),
      verifyWebhook Demo.env Demo.genuine_request next w = (Return unauthorized, w).
Proof.
  split_and!.
  - vm_compute. reflexivity.
  - reflexivity.
  - vm_compute. discriminate.
  - intros next w. rewrite verifyWebhook_eq.
    vm_compute. reflexivity.
Qed.

(** Conversely the same bytes pass under a header that is not their
    HMAC. *)
Lemma verifyWebhook_accepts_other_signature :
  hmac_header Demo.resigned_request
  ≠ Some (Crypto.createHmac_sha256_base64 "hush" (raw_body Demo.resigned_request))
  ∧ ∀ (next : M Demo.platform Response) (w : World Demo.platform),
      verifyWebhook Demo.env Demo.resigned_request next w = next w.
Proof.
  split.
  - vm_compute. discriminate.
  - intros next w. rewrite verifyWebhook_eq.
    vm_compute. reflexivity.
Qed.

(** The scenarios of section 8 of the specification. *)
Example scenario_created_then_fulfilled :
  let '(r1, w1) := webhook_order_created Demo.env (Demo.signed Demo.webhook_1001)
                     (Demo.started Demo.open_shop) in
  let '(r2, w2) := webhook_order_fulfilled Demo.env (Demo.signed Demo.webhook_1001) w1 in
  r1 = ok200
  ∧ List.filter is_post (calls w1) = [adjust_request Demo.env 1 5500 (-2)]
  ∧ elements (processedOrders w1) = ["1001"]
  ∧ r2 = ok200
  ∧ List.filter is_post (calls w2)
    = [adjust_request Demo.env 1 5500 (-2); adjust_request Demo.env 1 5500 2]
  ∧ elements (processedOrders w2) = []
  ∧ Demo.stock_of 55 (shop w2) = Some 10.
Proof. vm_compute. split_and!; reflexivity. Qed.

Example scenario_cancel_unknown_order :
  webhook_order_cancelled Demo.env (Demo.signed Demo.webhook_2002)
    (Demo.started Demo.open_shop)
  = (ok200, logged (LogSkipped "2002") (Demo.started Demo.open_shop)).
Proof. vm_compute. reflexivity. Qed.

Example scenario_tampered_body :
  let req := {| hmac_header := hmac_header (Demo.signed Demo.webhook_1001);
                raw_body := raw_body (Demo.signed Demo.webhook_1002);
                body := Demo.webhook_1002 |} in
  webhook_order_created Demo.env req (Demo.started Demo.open_shop)
  = (unauthorized, Demo.started Demo.open_shop).
Proof. vm_compute. reflexivity. Qed.

(** A webhook whose body carries a note besides, under the header that
    [verifyWebhook] accepts: the order is tracked, and the history of
    events says so. *)
Example order_with_note_is_tracked :
  let req := {| hmac_header := hmac_header Demo.resigned_request;
                raw_body := raw_body Demo.resigned_request;
                body := Demo.webhook_with_note |} in
  let '(h, w) := run_events Demo.env [OrderCreated req] (Demo.started Demo.open_shop) in
  List.map (fun er => status (snd er)) h = [200]
  ∧ elements (processedOrders w) = ["1001"]
  ∧ tracked_after Demo.env h "1001" false = true
  ∧ Demo.stock_of 55 (shop w) = Some 8.
Proof. vm_compute. split_and!; reflexivity. Qed.

(** A failure on the first line item does not keep the second from being
    adjusted. *)
Example second_item_survives_first_failure :
  let '(r, w) := respond (order_created_handler Demo.env Demo.order_1002)
                   (Demo.started Demo.open_shop) in
  r = ok200
  ∧ console w
    = [LogItemFailed AtCreate 77
         "Inventory update failed: No inventory levels found for variant 77";
       LogAdjusted 55 (-3); LogItemDone AtCreate 55 3]
  ∧ Demo.stock_of 55 (shop w) = Some 7.
Proof. vm_compute. split_and!; reflexivity. Qed.

(** A second delivery of order-created deducts a second time. *)
Example redelivery_deducts_twice :
  let '(_, w1) := respond (order_created_handler Demo.env Demo.order_1001)
                    (Demo.started Demo.open_shop) in
  let '(_, w2) := respond (order_created_handler Demo.env Demo.order_1001) w1 in
  Demo.stock_of 55 (shop w1) = Some 8 ∧ Demo.stock_of 55 (shop w2) = Some 6
  ∧ elements (processedOrders w2) = ["1001"].
Proof. vm_compute. split_and!; reflexivity. Qed.

(** ** The theorems on the demo shop *)

(** C3 on order 1001 while the shop is down: no adjustment succeeds and
    the order is tracked all the same. *)
Lemma order_created_marks_tracked_witness :
  ∃ w', respond (order_created_handler Demo.env Demo.order_1001)
          (Demo.started (Demo.shop_down 3)) = (ok200, w')
        ∧ toString (IdNum 1001) ∈ processedOrders w'.
Proof.
  apply (order_created_marks_tracked Demo.env Demo.order_1001 (IdNum 1001)
           [ {| variant_id := 55; quantity := 2 |} ]);
    reflexivity.
Defined.

(** X1 on the signed request for order 1001. *)
Lemma verifyWebhook_checks_reserialised_body_witness :
  verifyWebhook Demo.env (Demo.signed Demo.webhook_1001)
    (order_created_handler Demo.env Demo.order_1001) (Demo.started Demo.open_shop)
  = order_created_handler Demo.env Demo.order_1001 (Demo.started Demo.open_shop).
Proof.
  apply (verifyWebhook_checks_reserialised_body Demo.env (Demo.signed Demo.webhook_1001)
           (order_created_handler Demo.env Demo.order_1001) (Demo.started Demo.open_shop)
           "hush" eq_refl).
  reflexivity.
Defined.

(** C4 on order 1001 in a process that tracks nothing. *)
Lemma terminal_event_untracked_is_skipped_witness :
  (∃ w', respond (order_cancelled_handler Demo.env Demo.order_1001)
           (Demo.started Demo.open_shop) = (ok200, w')
         ∧ processedOrders w' = processedOrders (Demo.started Demo.open_shop)
         ∧ calls w' = calls (Demo.started Demo.open_shop)
         ∧ shop w' = shop (Demo.started Demo.open_shop))
  ∧ (∃ w', respond (order_fulfilled_handler Demo.env Demo.order_1001)
             (Demo.started Demo.open_shop) = (ok200, w')
           ∧ processedOrders w' = processedOrders (Demo.started Demo.open_shop)
           ∧ calls w' = calls (Demo.started Demo.open_shop)
           ∧ shop w' = shop (Demo.started Demo.open_shop)).
Proof.
  apply (terminal_event_untracked_is_skipped Demo.env Demo.order_1001 (IdNum 1001)).
  - reflexivity.
  - compute_done.
Defined.






Example test_order_stops_at_first_failure :
  let '(r, w') := test_process_order Demo.env Demo.test_order_7
                    (Demo.started Demo.open_shop) in
  r = {| status := 500;
         payload := JsonError
           "Inventory update failed: No inventory levels found for variant 77" |}
  ∧ console w' = [LogAdjusted 55 (-2); LogItemDone AtTest 55 2]
  ∧ Demo.stock_of 55 (shop w') = Some 8
  ∧ elements (processedOrders w') = [].
Proof. vm_compute. split_and!; reflexivity. Qed.

(** X2 while the shop is down: the variant lookup is answered 503. *)
Lemma updateInventoryForVariant_wraps_every_failure_witness :
  let '(r, w') := updateInventoryForVariant Demo.env 55 (-2)
                    (Demo.started (Demo.shop_down 1)) in
  r = Throw (Error ("Inventory update failed: Shopify API Error: " +:+ Js.Number_toString 503 +:+ " - "
                      +:+ Json.stringify
                            (Json.Obj [("errors", Json.Str "Service Unavailable")])))
  ∧ calls w' = calls (Demo.started (Demo.shop_down 1)) ++ [variant_request Demo.env 55]
  ∧ shop w' = Demo.open_shop.
Proof.
  pose proof (updateInventoryForVariant_wraps_every_failure Demo.env 55 (-2)
                (Demo.started (Demo.shop_down 1))) as H.
  destruct (updateInventoryForVariant Demo.env 55 (-2) (Demo.started (Demo.shop_down 1)))
    as [r w'].
  destruct H as (_ & _ & H & _).
  apply (H 503 (Json.Obj [("errors", Json.Str "Service Unavailable")]) Demo.open_shop).
  reflexivity.
Defined.

(** X3 on an order whose [line_items] is the number 3. *)
Lemma order_created_malformed_body_witness :
  respond (order_created_handler Demo.env
             {| id := Some (IdNum 1001); line_items := ItemsNumber 3 |})
    (Demo.started Demo.open_shop)
  = (error500, remember (toString (IdNum 1001)) (Demo.started Demo.open_shop)).
Proof.
  destruct (order_created_malformed_body Demo.env
              {| id := Some (IdNum 1001); line_items := ItemsNumber 3 |}
              (Demo.started Demo.open_shop)) as (_ & _ & H & _).
  apply (H (IdNum 1001) 3); reflexivity.
Defined.

(** X4 on a cancellation of the tracked order 1001 that carries no line
    items. *)
Lemma terminal_event_malformed_body_witness :
  respond (terminal_handler Demo.env false
             {| id := Some (IdNum 1001); line_items := NoItems |}) Demo.tracking
  = (error500, Demo.tracking).
Proof.
  destruct (terminal_event_malformed_body Demo.env false
              {| id := Some (IdNum 1001); line_items := NoItems |} Demo.tracking)
    as [_ H].
  apply (H (IdNum 1001)); [reflexivity | compute_done | discriminate].
Defined.

(** X5 on the tracked order 1001: cancelled, then fulfilled. *)
Lemma terminal_event_compensates_once_witness :
  ∃ w1, respond (terminal_handler Demo.env false Demo.order_1001) Demo.tracking = (ok200, w1)
        ∧ respond (terminal_handler Demo.env true Demo.order_1001) w1
          = (ok200, logged (LogSkipped (toString (IdNum 1001))) w1).
Proof.
  apply (terminal_event_compensates_once Demo.env false true Demo.order_1001 Demo.order_1001
           (IdNum 1001) (IdNum 1001) [ {| variant_id := 55; quantity := 2 |} ] Demo.tracking);
    [reflexivity | reflexivity | compute_done | reflexivity | reflexivity].
Defined.

(** X6 on order 1001 while order 1002 is created and cancelled and the
    test endpoint is called. *)
Lemma other_orders_keep_their_tracking_witness :
  "1001" ∈ processedOrders
             (run_events Demo.env
                [ OrderCreated (Demo.signed Demo.webhook_1002);
                  OrderCancelled (Demo.signed Demo.webhook_1002);
                  TestProcessOrder Demo.test_order_7 ] Demo.tracking).2
  ↔ "1001" ∈ processedOrders Demo.tracking.
Proof.
  apply (other_orders_keep_their_tracking Demo.env
           [ OrderCreated (Demo.signed Demo.webhook_1002);
             OrderCancelled (Demo.signed Demo.webhook_1002);
             TestProcessOrder Demo.test_order_7 ] Demo.tracking "1001").
  repeat constructor; vm_compute; discriminate.
Defined.

(** X7 on an order whose identifier is 2^60: it is tracked, and found
    again, under the digits JavaScript prints for it. *)
Lemma number_and_string_ids_share_tracking_witness :
  ∃ w1 w2, respond (order_created_handler Demo.env
                      {| id := Some (IdNum (2 ^ 60));
                         line_items := ItemsArray [ {| variant_id := 55; quantity := 2 |} ] |})
             (Demo.started Demo.open_shop) = (ok200, w1)
           ∧ respond (terminal_handler Demo.env true
                        {| id := Some (IdStr "1152921504606847000");
                           line_items := ItemsArray [ {| variant_id := 55; quantity := 2 |} ] |})
               w1 = (ok200, w2)
           ∧ loop_trace Demo.env AtFulfil (fun q => q)
               [ {| variant_id := 55; quantity := 2 |} ] w1 w2
           ∧ processedOrders w2
             = processedOrders (Demo.started Demo.open_shop) ∖ {[Js.Number_toString (2 ^ 60)]}.
Proof.
  apply (number_and_string_ids_share_tracking Demo.env (2 ^ 60)
           {| id := Some (IdNum (2 ^ 60));
              line_items := ItemsArray [ {| variant_id := 55; quantity := 2 |} ] |}
           {| id := Some (IdStr "1152921504606847000");
              line_items := ItemsArray [ {| variant_id := 55; quantity := 2 |} ] |}
           [ {| variant_id := 55; quantity := 2 |} ]
           [ {| variant_id := 55; quantity := 2 |} ] true (Demo.started Demo.open_shop));
    vm_compute; reflexivity.
Defined.

(** X8 on the tracked order 1002: created again, then fulfilled. *)
Lemma webhook_requests_bounded_witness :
  (∃ w' new, respond (order_created_handler Demo.env Demo.order_1002) Demo.tracking
             = (ok200, w')
             ∧ calls w' = calls Demo.tracking ++ new
             ∧ within_budget [ {| variant_id := 77; quantity := 1 |};
                               {| variant_id := 55; quantity := 3 |} ] new
             ∧ adjusts_only Demo.env Z.opp [ {| variant_id := 77; quantity := 1 |};
                                             {| variant_id := 55; quantity := 3 |} ] new)
  ∧ (∃ w' new, respond (terminal_handler Demo.env true Demo.order_1002) Demo.tracking
               = (ok200, w')
               ∧ calls w' = calls Demo.tracking ++ new
               ∧ within_budget [ {| variant_id := 77; quantity := 1 |};
                                 {| variant_id := 55; quantity := 3 |} ] new
               ∧ adjusts_only Demo.env (fun q => q)
                   [ {| variant_id := 77; quantity := 1 |};
                     {| variant_id := 55; quantity := 3 |} ] new).
Proof.
  destruct (webhook_requests_bounded Demo.env Demo.order_1002 (IdNum 1002)
              [ {| variant_id := 77; quantity := 1 |}; {| variant_id := 55; quantity := 3 |} ]
              Demo.tracking eq_refl eq_refl) as [Hcreated Hterminal].
  split; [exact Hcreated|].
  apply Hterminal. compute_done.
Defined.

(** X9 on the test order whose second line item fails. *)
Lemma test_process_order_requests_witness :
  let '(r, w') := test_process_order Demo.env Demo.test_order_7
                    (Demo.started Demo.open_shop) in
  ∃ k done last,
    calls w' = calls (Demo.started Demo.open_shop) ++ concat done ++ last
    ∧ Forall2 (fun li g => adjustment_calls Demo.env (variant_id li) (- quantity li) g)
        (take k [ {| variant_id := 55; quantity := 2 |};
                  {| variant_id := 77; quantity := 1 |};
                  {| variant_id := 55; quantity := 4 |} ]) done
    ∧ (status r = 200 ∧ k = 3%nat ∧ last = []
       ∨ status r = 500
         ∧ ∃ li, [ {| variant_id := 55; quantity := 2 |};
                   {| variant_id := 77; quantity := 1 |};
                   {| variant_id := 55; quantity := 4 |} ] !! k = Some li
                 ∧ item_calls Demo.env (variant_id li) (- quantity li) last).
Proof.
  pose proof (test_process_order_requests Demo.env Demo.test_order_7
                (Demo.started Demo.open_shop) eq_refl) as H.
  destruct (test_process_order Demo.env Demo.test_order_7 (Demo.started Demo.open_shop))
    as [r w'].
  destruct H as [H _].
  exact (H _ eq_refl).
Defined.

(** X10 on a correctly signed request for order 1001. *)
Lemma webhooks_need_the_secret_witness :
  webhook_order_created env_without_secret (Demo.signed Demo.webhook_1001)
    (Demo.started Demo.open_shop)
  = ({| status := 500; payload := ErrorPage |}, Demo.started Demo.open_shop)
  ∧ webhook_order_cancelled env_without_secret (Demo.signed Demo.webhook_1001)
      (Demo.started Demo.open_shop)
    = ({| status := 500; payload := ErrorPage |}, Demo.started Demo.open_shop)
  ∧ webhook_order_fulfilled env_without_secret (Demo.signed Demo.webhook_1001)
      (Demo.started Demo.open_shop)
    = ({| status := 500; payload := ErrorPage |}, Demo.started Demo.open_shop).
Proof.
  apply (webhooks_need_the_secret env_without_secret (Demo.signed Demo.webhook_1001)
           (Demo.started Demo.open_shop)).
  reflexivity.
Defined.

(** X11 on a platform that answers the probe with the shop's name and
    domain. *)
Lemma test_connection_probes_once_witness :
  ∃ r w', test_connection_handler Demo.env (boot (P:=probe_platform) tt) = (Return r, w')
          ∧ calls w' = [shop_request Demo.env]
          ∧ reply_json r
            = Json.Obj [("status", Json.Str "connected"); ("shop", Json.Str "Demo");
                        ("domain", Json.Str "demo.myshopify.com")].
Proof.
  destruct (test_connection_probes_once Demo.env (boot (P:=probe_platform) tt))
    as (r & w' & Hrun & _ & _ & Hcalls & _ & _ & Hbody & _).
  exists r, w'. split_and!; [exact Hrun | exact Hcalls |].
  apply (Hbody (OtherData
                  (Json.Obj [("shop", Json.Obj [("name", Json.Str "Demo");
                                                ("domain", Json.Str "demo.myshopify.com")])]))
               [("name", Json.Str "Demo"); ("domain", Json.Str "demo.myshopify.com")]);
    reflexivity.
Defined.

(** X12 on order 1001 sent without its identifier. *)
Lemma first_listing_differs_by_tracking_witness :
  let '(r1, w1) := respond (order_created_handler_v1 Demo.env
                              {| id := None; line_items := line_items Demo.order_1001 |})
                     (Demo.started Demo.open_shop) in
  let '(r2, w2) := respond (order_created_handler Demo.env
                              {| id := None; line_items := line_items Demo.order_1001 |})
                     (Demo.started Demo.open_shop) in
  r2 = error500 ∧ w2 = Demo.started Demo.open_shop
  ∧ r1 = ok200
  ∧ loop_trace Demo.env AtCreate Z.opp [ {| variant_id := 55; quantity := 2 |} ]
      (Demo.started Demo.open_shop) w1.
Proof.
  pose proof (first_listing_differs_by_tracking Demo.env
                {| id := None; line_items := line_items Demo.order_1001 |}
                (Demo.started Demo.open_shop)) as H.
  destruct (respond (order_created_handler_v1 Demo.env _) _) as [r1 w1].
  destruct (respond (order_created_handler Demo.env _) _) as [r2 w2].
  destruct H as (_ & _ & H). destruct (H eq_refl) as (Hr2 & Hw2 & Hfirst).
  destruct (Hfirst _ eq_refl) as [Hr1 Htrace].
  split_and!; assumption.
Defined.

(** The first listing on that body, run: it deducts the two units. *)
Example first_listing_deducts_without_identifier :
  let '(r, w) := respond (order_created_handler_v1 Demo.env
                            {| id := None; line_items := line_items Demo.order_1001 |})
                   (Demo.started Demo.open_shop) in
  r = ok200
  ∧ Demo.stock_of 55 (shop w) = Some 8
  ∧ elements (processedOrders w) = [].
Proof. vm_compute. split_and!; reflexivity. Qed.

(** X13 seen on a run: order 1001 created, fulfilled, and the test
    endpoint called. *)
Example requests_of_a_run :
  List.map url
    (calls (run_events Demo.env
              [ OrderCreated (Demo.signed Demo.webhook_1001);
                OrderFulfilled (Demo.signed Demo.webhook_1001) ]
              (Demo.started Demo.open_shop)).2)
  = [ "https://demo.myshopify.com/admin/api/2023-10/variants/55.json";
      "https://demo.myshopify.com/admin/api/2023-10/inventory_levels.json?inventory_item_ids=5500";
      "https://demo.myshopify.com/admin/api/2023-10/inventory_levels/adjust.json";
      "https://demo.myshopify.com/admin/api/2023-10/variants/55.json";
      "https://demo.myshopify.com/admin/api/2023-10/inventory_levels.json?inventory_item_ids=5500";
      "https://demo.myshopify.com/admin/api/2023-10/inventory_levels/adjust.json" ].
Proof. vm_compute. reflexivity. Qed.

(** ** Where the specification's statements fail *)

(** C1 as stated fails. The shop is down while order 1001 is created: the
    webhook is answered 200 and the order is tracked, yet no deduction was
    applied, not even requested: the service sent no mutating call and the
    stock is what it was. *)
Lemma tracked_without_any_deduction :
  let '(r, w) := webhook_order_created Demo.env (Demo.signed Demo.webhook_1001)
                   (Demo.started (Demo.shop_down 3)) in
  status r = 200
  ∧ elements (processedOrders w) = ["1001"]
  ∧ List.filter is_post (calls w) = []
  ∧ applied_delta 55 (console w) = 0
  ∧ Demo.stock_of 55 (shop w) = Demo.stock_of 55 (Demo.shop_down 3).
Proof. vm_compute. split_and!; reflexivity. Qed.

(** And in the other direction the test endpoint deducts without
    tracking. *)
Lemma deducted_without_tracking :
  let b := {| orderId := Some (IdNum 1001);
              lineItems := ItemsArray [ {| variant_id := 55; quantity := 2 |} ] |} in
  let '(r, w) := test_process_order Demo.env b (Demo.started Demo.open_shop) in
  status r = 200
  ∧ applied_delta 55 (console w) = -2
  ∧ Demo.stock_of 55 (shop w) = Some 8
  ∧ elements (processedOrders w) = [].
Proof. vm_compute. split_and!; reflexivity. Qed.


(** A cancellation whose body has lost its line items throws at the loop:
    it is answered 500 and the order stays tracked. *)
Lemma cancel_without_line_items_stays_tracked :
  let o := {| id := Some (IdNum 1001); line_items := NoItems |} in
  let '(r, w) := respond (order_cancelled_handler Demo.env o) Demo.tracking in
  status r = 500
  ∧ elements (processedOrders w) = elements (processedOrders Demo.tracking)
  ∧ calls w = [].
Proof. vm_compute. split_and!; reflexivity. Qed.

